(** * financial_budget.py: a shallow embedding and its specification

    The development follows the layout of [src/financial_budget.py]: one
    module per Python class ([Transaction], [Budget], [TransactionLog],
    [FinanceManager]), each method a definition of the same name.

    Modelling choices.
    - In the session model a Python [float] amount is an exact rational
      ([Q]); the comparison [a < b] is [Qlt_bool a b], and Python's numeric
      [==] is [Qeq].  What is proved there concerns control flow, the
      contents of the log, comparisons with zero and single additions.
      Where the value of a total matters, [Binary64.Budget] is the class
      over IEEE 754 doubles, with rounding, infinities and NaN.
    - Exceptions are values of [exn]; a method is a state transformer
      returning a [result] together with the state it leaves behind, so a
      mutation made before an exception is raised stays visible.
    - The list held by a [TransactionLog] is a mutable Python object that
      the [transactions] accessor hands out by reference: lists live in a
      store indexed by locations, and a log holds a location.
    - [datetime.now()] reads a clock oracle; [input] consumes the next line
      of standard input and raises [EOFError] when none is left, which
      makes every [while True] loop a structural recursion on the input. *)

From Stdlib Require Import QArith Qminmax Qround Lqa.
From Stdlib Require Import String Ascii.
From Stdlib Require Import Floats.
From stdpp Require Import gmap list pretty.

Local Open Scope string_scope.
Local Open Scope list_scope.
Local Open Scope Q_scope.

(** ** Python values, exceptions and effects *)

(** The exceptions that the program can raise. *)
Inductive exn : Type :=
| ValueError (msg : string)
| EOFError
| AttributeError (msg : string).

Inductive result (A : Type) : Type :=
| Ok (a : A)
| Raise (e : exn).
Arguments Ok {A} a.
Arguments Raise {A} e.

(** A computation over a mutable state [S] that returns an [A] or raises. *)
Definition M (S A : Type) : Type := S -> result A * S.

Definition ret {S A} (a : A) : M S A := fun s => (Ok a, s).
Definition raise {S A} (e : exn) : M S A := fun s => (Raise e, s).
Definition bind {S A B} (m : M S A) (k : A -> M S B) : M S B :=
  fun s => match m s with
           | (Ok a, s') => k a s'
           | (Raise e, s') => (Raise e, s')
           end.
Definition get {S} : M S S := fun s => (Ok s, s).
Definition modify {S} (f : S -> S) : M S unit := fun s => (Ok tt, f s).

(** [try: m except ValueError as e: h e] *)
Definition try_except_ValueError {S A} (m : M S A) (h : string -> M S A) : M S A :=
  fun s => match m s with
           | (Raise (ValueError msg), s') => h msg s'
           | r => r
           end.

(** Run a computation on a component of the state. *)
Definition zoom {S T A} (proj : S -> T) (upd : T -> S -> S) (m : M T A) : M S A :=
  fun s => let '(r, t') := m (proj s) in (r, upd t' s).

Declare Scope py_scope.
Delimit Scope py_scope with py.
Notation "x <- c ;; k" := (bind c (fun x => k))
  (at level 100, c at next level, right associativity) : py_scope.
Notation "c ;; k" := (bind c (fun _ => k))
  (at level 100, right associativity) : py_scope.
Local Open Scope py_scope.

(** Python's [a < b] and [a > b] on numbers. *)
Definition Qlt_bool (a b : Q) : bool := negb (Qle_bool b a).
Definition Qgt_bool (a b : Q) : bool := Qlt_bool b a.

(** ** The clock behind [datetime.now()] *)

Record Clock : Type := mkClock {
  readings : nat -> Z;   (* the value of the k-th reading *)
  ticks : nat            (* how many readings were taken so far *)
}.

Definition datetime_now : M Clock Z :=
  fun c => (Ok (readings c (ticks c)), mkClock (readings c) (S (ticks c))).

(** ** class Transaction *)

Module Transaction.

Record t : Type := mk {
  _description : string;
  _amount : Q;
  _timestamp : Z
}.

Definition __init__ (description : string) (amount : Q) : M Clock t :=
  now <- datetime_now ;;
  ret {| _description := description; _amount := amount; _timestamp := now |}.

Definition description (self : t) : string := _description self.
Definition amount (self : t) : Q := _amount self.
Definition timestamp (self : t) : Z := _timestamp self.

End Transaction.

(** ** class Budget *)

Module Budget.

Record t : Type := mk {
  _amount : Q;
  _spent : Q
}.

Definition __init__ (amount : Q) : result t :=
  if Qlt_bool amount 0 then Raise (ValueError "Budget cannot be negative")
  else Ok {| _amount := amount; _spent := 0 |}.

Definition total_budget : M t Q :=
  self <- get ;; ret (_amount self).

Definition total_spent : M t Q :=
  self <- get ;; ret (_spent self).

Definition remaining : M t Q :=
  self <- get ;; ret (_amount self - _spent self).

Definition is_exceeded : M t bool :=
  self <- get ;; ret (Qgt_bool (_spent self) (_amount self)).

Definition deficit : M t Q :=
  exceeded <- is_exceeded ;;
  self <- get ;;
  if exceeded : bool then ret (_spent self - _amount self) else ret 0.

Definition add_expense (amount : Q) : M t unit :=
  if Qlt_bool amount 0 then raise (ValueError "Expense amount cannot be negative")
  else modify (fun self => {| _amount := _amount self; _spent := _spent self + amount |}).

End Budget.

(** ** class Budget over binary64

    The same class with its amounts as the IEEE 754 doubles that Python's
    [float] is: every addition and subtraction rounds to nearest even,
    sums can overflow to infinity, and a comparison with NaN is false.
    This is the embedding to read wherever the value of a total matters. *)

Module Binary64.

Module Budget.

Record t : Type := mk {
  _amount : PrimFloat.float;
  _spent : PrimFloat.float
}.

Definition __init__ (amount : PrimFloat.float) : result t :=
  if (amount <? 0)%float then Raise (ValueError "Budget cannot be negative")
  else Ok {| _amount := amount; _spent := 0%float |}.

Definition total_budget : M t PrimFloat.float :=
  self <- get ;; ret (_amount self).

Definition total_spent : M t PrimFloat.float :=
  self <- get ;; ret (_spent self).

Definition remaining : M t PrimFloat.float :=
  self <- get ;; ret (_amount self - _spent self)%float.

(** [self._spent > self._amount] *)
Definition is_exceeded : M t bool :=
  self <- get ;; ret (_amount self <? _spent self)%float.

(** The [0] of the second branch is the integer zero, equal to [0.0]. *)
Definition deficit : M t PrimFloat.float :=
  exceeded <- is_exceeded ;;
  self <- get ;;
  if exceeded : bool then ret (_spent self - _amount self)%float else ret 0%float.

Definition add_expense (amount : PrimFloat.float) : M t unit :=
  if (amount <? 0)%float
  then raise (ValueError "Expense amount cannot be negative")
  else modify (fun self => {| _amount := _amount self;
                              _spent := (_spent self + amount)%float |}).

End Budget.

End Binary64.

(** ** The store of Python list objects *)

Definition loc : Type := positive.

(** A [list] of transactions is a mutable object: the store maps the
    location of each allocated list to its current contents. *)
Abbreviation Store := (gmap loc (list Transaction.t)).

Module PyList.

(** [[]]: allocate a new empty list. *)
Definition new : M Store loc :=
  fun σ => let l := fresh (dom σ) in (Ok l, <[l := []]> σ).

(** The current contents of the list at [l]. *)
Definition items (l : loc) : M Store (list Transaction.t) :=
  fun σ => (Ok (default [] (σ !! l)), σ).

(** [l.append(x)] *)
Definition append (l : loc) (x : Transaction.t) : M Store unit :=
  fun σ => (Ok tt, <[l := default [] (σ !! l) ++ [x]]> σ).

(** [l.clear()] *)
Definition clear (l : loc) : M Store unit :=
  fun σ => (Ok tt, <[l := []]> σ).

(** [len(l)] *)
Definition len (l : loc) : M Store nat :=
  xs <- items l ;; ret (length xs).

(** A list iterator: the list it walks and the index of the next element.
    It only reads the list. *)
Record iterator : Type := mkIter { it_list : loc; it_index : nat }.

(** [iter(l)] *)
Definition iter (l : loc) : M Store iterator :=
  ret {| it_list := l; it_index := 0 |}.

(** [next(it)]: [None] stands for [StopIteration]. *)
Definition next (it : iterator) : M Store (option Transaction.t * iterator) :=
  xs <- items (it_list it) ;;
  match xs !! it_index it with
  | Some x => ret (Some x, {| it_list := it_list it; it_index := S (it_index it) |})
  | None => ret (None, it)
  end.

(** What a [for] loop over [it] visits when its body leaves the list alone. *)
Definition remaining (it : iterator) : M Store (list Transaction.t) :=
  xs <- items (it_list it) ;; ret (drop (it_index it) xs).

End PyList.

(** ** The world a session runs in *)

Record World : Type := mkWorld {
  store : Store;
  clock : Clock;
  stdout : list string
}.

Definition on_store {A} : M Store A -> M World A :=
  zoom store (fun σ w => mkWorld σ (clock w) (stdout w)).
Definition on_clock {A} : M Clock A -> M World A :=
  zoom clock (fun c w => mkWorld (store w) c (stdout w)).

(** The line terminator. *)
Definition nl : string := String (ascii_of_nat 10) EmptyString.

(** [sys.stdout.write(s)]: standard output is the list of chunks written. *)
Definition write (s : string) : M World unit :=
  modify (fun w => mkWorld (store w) (clock w) (stdout w ++ [s])).

(** [print(s)] writes [s] and ends the line. *)
Definition printed (s : string) : string := (s ++ nl)%string.

Definition print (s : string) : M World unit :=
  write (printed s).

(** ** class TransactionLog *)

Module TransactionLog.

Record t : Type := mk { _transactions : loc }.

Definition __init__ : M World t :=
  l <- on_store PyList.new ;; ret {| _transactions := l |}.

Definition add_transaction (self : t) (description : string) (amount : Q)
  : M World Transaction.t :=
  transaction <- on_clock (Transaction.__init__ description amount) ;;
  on_store (PyList.append (_transactions self) transaction) ;;
  ret transaction.

(** The accessor returns the list object itself, not a copy. *)
Definition transactions (self : t) : M World loc :=
  ret (_transactions self).

Definition count (self : t) : M World nat :=
  on_store (PyList.len (_transactions self)).

(** Python's [sum]: start from 0 and add the items from left to right. *)
Definition sum (xs : list Q) : Q := fold_left Qplus xs 0.

Definition get_total (self : t) : M World Q :=
  xs <- on_store (PyList.items (_transactions self)) ;;
  ret (sum (map Transaction.amount xs)).

Definition __iter__ (self : t) : M World PyList.iterator :=
  on_store (PyList.iter (_transactions self)).

Definition __len__ (self : t) : M World nat :=
  on_store (PyList.len (_transactions self)).

End TransactionLog.

(** ** class FinanceManager *)

Module FinanceManager.

Record t : Type := mk {
  budget : option Budget.t;
  transaction_log : TransactionLog.t
}.

(** A method of the manager acts on the object and on the world. *)
Record State : Type := mkState { self : t; world : World }.

Definition in_world {A} : M World A -> M State A :=
  zoom world (fun w s => mkState (self s) w).

(** [self.budget = b] *)
Definition set_budget (b : Budget.t) : M State unit :=
  modify (fun s => mkState {| budget := Some b;
                              transaction_log := transaction_log (self s) |}
                           (world s)).

(** [self.budget.name]: an [AttributeError] while [self.budget] is [None]. *)
Definition on_budget {A} (name : string) (m : M Budget.t A) : M State A :=
  fun s =>
    match budget (self s) with
    | None =>
        (Raise (AttributeError
                  ("'NoneType' object has no attribute '" ++ name ++ "'")%string), s)
    | Some b =>
        let '(r, b') := m b in
        (r, mkState {| budget := Some b';
                       transaction_log := transaction_log (self s) |}
                    (world s))
    end.

Definition lift_result {S A} (r : result A) : M S A := fun s => (r, s).

Definition __init__ : M World t :=
  log <- TransactionLog.__init__ ;;
  ret {| budget := None; transaction_log := log |}.

(** [for i in range(start, start + n)] with the unread input threaded
    through the body. *)
Fixpoint for_range {S} (start n : nat)
    (body : nat -> list string -> M S (list string))
    (lines : list string) : M S (list string) :=
  match n with
  | O => ret lines
  | Datatypes.S n' =>
      lines' <- body start lines ;;
      for_range (Datatypes.S start) n' body lines'
  end.

(** [for i, x in enumerate(xs, start)] *)
Fixpoint for_enumerate {S A} (start : nat) (xs : list A)
    (body : nat -> A -> M S unit) : M S unit :=
  match xs with
  | [] => ret tt
  | x :: xs' => body start x ;; for_enumerate (Datatypes.S start) xs' body
  end.

Section Builtins.

(** The built-ins the program relies on: [float] applied to a line of text
    gives a number or the message of the [ValueError] it raises; the two
    formatters render [f"{x:.2f}"] and [strftime("%H:%M:%S")]. *)
Variable float : string -> string + Q.
Variable format_2f : Q -> string.
Variable strftime_HMS : Z -> string.

Definition py_float {S} (text : string) : M S Q :=
  match float text with
  | inl msg => raise (ValueError msg)
  | inr x => ret x
  end.

(** [input(prompt)]: write the prompt, then read one line. *)
Definition input (prompt : string) (lines : list string)
  : M State (string * list string) :=
  in_world (write prompt) ;;
  match lines with
  | [] => raise EOFError
  | line :: rest => ret (line, rest)
  end.

Definition invalid_message (e : string) : string :=
  ("Invalid input: " ++ e ++ ". Please try again.")%string.

Definition report_invalid (e : string) : M State unit :=
  in_world (print (invalid_message e)).

Fixpoint get_budget (lines : list string) : M State (Budget.t * list string) :=
  match lines with
  | [] => in_world (write "Enter your weekly budget: ") ;; raise EOFError
  | line :: rest =>
      in_world (write "Enter your weekly budget: ") ;;
      try_except_ValueError
        (amount <- py_float line ;;
         b <- lift_result (Budget.__init__ amount) ;;
         set_budget b ;;
         ret (b, rest))
        (fun e => report_invalid e ;; get_budget rest)
  end.

(** The [while True] loop of [get_transaction]. *)
Fixpoint get_transaction_loop (description : string) (lines : list string)
  : M State (Transaction.t * list string) :=
  match lines with
  | [] => in_world (write "Enter expense amount: ") ;; raise EOFError
  | line :: rest =>
      in_world (write "Enter expense amount: ") ;;
      try_except_ValueError
        (amount <- py_float line ;;
         s <- get ;;
         transaction <- in_world (TransactionLog.add_transaction
                                    (transaction_log (self s)) description amount) ;;
         on_budget "add_expense" (Budget.add_expense amount) ;;
         ret (transaction, rest))
        (fun e => report_invalid e ;; get_transaction_loop description rest)
  end.

Definition get_transaction (lines : list string)
  : M State (Transaction.t * list string) :=
  entered <- input "Enter expense description: " lines ;;
  let '(description, lines) := entered in
  get_transaction_loop description lines.

Definition check_budget_status : M State unit :=
  exceeded <- on_budget "is_exceeded" Budget.is_exceeded ;;
  if exceeded : bool
  then in_world (print "WARNING: You have exceeded your budget!")
  else ret tt.

Definition print_summary : M State unit :=
  s <- get ;;
  let transactions := transaction_log (self s) in
  in_world (print (nl ++ "========== FINAL FINANCIAL SUMMARY ==========")%string) ;;
  total_budget <- on_budget "total_budget" Budget.total_budget ;;
  in_world (print ("Initial Budget: UGX " ++ format_2f total_budget)%string) ;;
  total_spent <- on_budget "total_spent" Budget.total_spent ;;
  in_world (print ("Total Expenses: UGX " ++ format_2f total_spent)%string) ;;
  exceeded <- on_budget "is_exceeded" Budget.is_exceeded ;;
  (if exceeded : bool
   then deficit <- on_budget "deficit" Budget.deficit ;;
        in_world (print ("Deficit: UGX " ++ format_2f deficit)%string)
   else remaining <- on_budget "remaining" Budget.remaining ;;
        in_world (print ("Remaining Balance: UGX " ++ format_2f remaining)%string)) ;;
  in_world (print (nl ++ "--- TRANSACTION LOG ---")%string) ;;
  it <- in_world (TransactionLog.__iter__ transactions) ;;
  xs <- in_world (on_store (PyList.remaining it)) ;;
  for_enumerate 1 xs (fun i transaction =>
    let timestamp := strftime_HMS (Transaction.timestamp transaction) in
    in_world (print (pretty i ++ ". " ++ Transaction.description transaction
                     ++ " - UGX " ++ format_2f (Transaction.amount transaction)
                     ++ " [" ++ timestamp ++ "]")%string)).

(** The [for i in range(5)] loop of [run]; what it leaves is the state in
    which the summary is printed. *)
Definition record_five (lines : list string) : M State (list string) :=
  for_range 0 5 (fun i lines =>
    in_world (print (nl ++ "Transaction " ++ pretty (i + 1)%nat)%string) ;;
    recorded <- get_transaction lines ;;
    check_budget_status ;;
    ret (snd recorded)) lines.

Definition run (lines : list string) : M State (list string) :=
  in_world (print ("Welcome to the Personal Finance Manager" ++ nl)%string) ;;
  chosen <- get_budget lines ;;
  let lines := snd chosen in
  in_world (print (nl ++ "Enter at least 5 transactions.")%string) ;;
  lines <- record_five lines ;;
  print_summary ;;
  ret lines.

(** [main]: build a manager in the given world and run it. *)
Definition main (lines : list string) : M World (list string) :=
  manager <- __init__ ;;
  fun w => let '(r, s) := run lines (mkState manager w) in (r, world s).

End Builtins.

End FinanceManager.

(** ** A concrete [float] for decimal literals

    Enough of Python's [float] to run sessions: an optional sign, digits
    and at most one decimal point, with at least one digit.  Anything else
    is answered with the [ValueError] message. *)

Module Decimal.

Definition digit (c : ascii) : option Z :=
  let n := nat_of_ascii c in
  if ((48 <=? n) && (n <=? 57))%nat then Some (Z.of_nat (n - 48)) else None.

(** [scan s num den point seen]: [num / den] is the value read so far,
    [point] tells whether the decimal point was passed and [seen] whether
    a digit was read. *)
Fixpoint scan (s : string) (num : Z) (den : positive) (point seen : bool)
  : option Q :=
  match s with
  | EmptyString => if seen then Some (num # den) else None
  | String c s' =>
      match digit c with
      | Some d =>
          scan s' (10 * num + d)%Z (if point then 10 * den else den)%positive
               point true
      | None =>
          if (Ascii.eqb c "."%char && negb point)%bool
          then scan s' num den true seen
          else None
      end
  end.

Definition float (text : string) : string + Q :=
  let signed :=
    match text with
    | String "-"%char s => (s, true)
    | String "+"%char s => (s, false)
    | _ => (text, false)
    end in
  match scan (fst signed) 0 1 false false with
  | Some q => inr (if snd signed then - q else q)
  | None => inl ("could not convert string to float: '" ++ text ++ "'")%string
  end.

Definition format_2f (x : Q) : string :=
  let cents := Qfloor (x * 100 + (1 # 2)) in
  let whole := (Z.abs cents / 100)%Z in
  let frac := (Z.abs cents mod 100)%Z in
  ((if (cents <? 0)%Z then "-" else "") ++ pretty whole ++ "."
   ++ (if (frac <? 10)%Z then "0" else "") ++ pretty frac)%string.

Definition strftime_HMS (seconds : Z) : string :=
  let two (n : Z) := ((if (n <? 10)%Z then "0" else "") ++ pretty n)%string in
  (two (seconds / 3600 mod 24)%Z ++ ":" ++ two (seconds / 60 mod 60)%Z ++ ":"
   ++ two (seconds mod 60)%Z)%string.

(** A world with no list allocated, an empty output and a clock that
    advances by one second per reading. *)
Definition world0 : World :=
  {| store := ∅; clock := mkClock Z.of_nat 0; stdout := [] |}.

(** The state right after [FinanceManager()] in that world: no budget yet
    and a log whose list was allocated first. *)
Definition state0 : FinanceManager.State :=
  FinanceManager.mkState
    {| FinanceManager.budget := None;
       FinanceManager.transaction_log := TransactionLog.mk 1%positive |}
    {| store := {[1%positive := []]}; clock := mkClock Z.of_nat 0; stdout := [] |}.

End Decimal.

(** ** Notions used to state the properties *)

(** The mathematical sum of a sequence of amounts. *)
Definition Qsum (amounts : list Q) : Q := fold_right Qplus 0 amounts.

(** Record the amounts one after the other; the first failure stops it. *)
Fixpoint record_all (amounts : list Q) : M Budget.t unit :=
  match amounts with
  | [] => ret tt
  | a :: rest => Budget.add_expense a ;; record_all rest
  end.


(** A query is pure when it returns a value and leaves the state as it
    was, so that asking twice in a row gives that value twice. *)
Definition pure_query {S A} (q : M S A) : Prop :=
  forall s : S, exists a : A,
    q s = (Ok a, s) /\ (first <- q ;; second <- q ;; ret (first, second)) s = (Ok (a, a), s).

(** The contents of the list behind a log. *)
Definition contents (log : TransactionLog.t) (w : World) : list Transaction.t :=
  default [] (store w !! TransactionLog._transactions log).

(** [list(log)]: iterate over the log and collect what it yields. *)
Definition to_list (log : TransactionLog.t) : M World (list Transaction.t) :=
  it <- TransactionLog.__iter__ log ;; on_store (PyList.remaining it).

(** A client that asks the log for its transactions and appends to what
    it was given; it reports the count before and after. *)
Definition client_appends (log : TransactionLog.t) (x : Transaction.t)
  : M World (nat * nat) :=
  before <- TransactionLog.count log ;;
  view <- TransactionLog.transactions log ;;
  on_store (PyList.append view x) ;;
  after <- TransactionLog.count log ;;
  ret (before, after).

(** A client that asks the log for its transactions and clears what it
    was given; it reports the count afterwards. *)
Definition client_clears (log : TransactionLog.t) : M World nat :=
  view <- TransactionLog.transactions log ;;
  on_store (PyList.clear view) ;;
  TransactionLog.count log.

(** A client that walks the log with an iterator; it reports the count
    before and after. *)
Definition client_iterates (log : TransactionLog.t) : M World (nat * nat) :=
  before <- TransactionLog.count log ;;
  it <- TransactionLog.__iter__ log ;;
  on_store (PyList.next it) ;;
  after <- TransactionLog.count log ;;
  ret (before, after).

(** What [add_transaction] returns and the world it leaves. *)
Definition added (d : string) (a : Q) (w : World) : Transaction.t :=
  Transaction.mk d a (readings (clock w) (ticks (clock w))).

Definition after_add (log : TransactionLog.t) (d : string) (a : Q) (w : World)
  : World :=
  {| store := <[TransactionLog._transactions log := contents log w ++ [added d a w]]>
                (store w);
     clock := mkClock (readings (clock w)) (S (ticks (clock w)));
     stdout := stdout w |}.

(** State updates used to describe what a method leaves behind. *)
Definition with_world (f : World -> World) (s : FinanceManager.State)
  : FinanceManager.State :=
  FinanceManager.mkState (FinanceManager.self s) (f (FinanceManager.world s)).

Definition wrote (chunks : list string) (w : World) : World :=
  {| store := store w; clock := clock w; stdout := stdout w ++ chunks |}.

Definition with_budget (b : Budget.t) (s : FinanceManager.State)
  : FinanceManager.State :=
  FinanceManager.mkState
    {| FinanceManager.budget := Some b;
       FinanceManager.transaction_log :=
         FinanceManager.transaction_log (FinanceManager.self s) |}
    (FinanceManager.world s).

Definition spend (a : Q) (b : Budget.t) : Budget.t :=
  {| Budget._amount := Budget._amount b; Budget._spent := Budget._spent b + a |}.

Definition budget_prompt : string := "Enter your weekly budget: ".
Definition amount_prompt : string := "Enter expense amount: ".
Definition description_prompt : string := "Enter expense description: ".

Section Malformed.

Variable float : string -> string + Q.

(** Malformed numeric input: text that [float] rejects, or a negative
    number. *)
Definition malformed (line : string) : Prop :=
  match float line with
  | inl _ => True
  | inr x => x < 0
  end.

(** The error that a malformed line leads to at the budget prompt and at
    the amount prompt. *)
Definition budget_error (line : string) : string :=
  match float line with
  | inl msg => msg
  | inr _ => "Budget cannot be negative"
  end.


(** What the terminal shows for a run of rejected lines at a prompt: the
    prompt and the report, once per line. *)
Definition retries (prompt : string) (error : string -> string) (bad : list string)
  : list string :=
  flat_map (fun line => [prompt; printed (FinanceManager.invalid_message (error line))])
           bad.

(** The numbers among the lines typed at a prompt, in order. *)
Definition numbers_entered (lines : list string) : list Q :=
  flat_map (fun line => match float line with
                        | inl _ => []
                        | inr x => [x]
                        end) lines.

(** One round of the expense loop as typed at the terminal: the
    description, the lines rejected at the amount prompt, and the line
    that is accepted. *)
Record round : Type := mkRound {
  r_description : string;
  r_rejected : list string;
  r_accepted : string
}.

Definition typed (r : round) : list string :=
  r_description r :: r_rejected r ++ [r_accepted r].

Definition playable (r : round) : Prop :=
  Forall malformed (r_rejected r) /\
  exists x : Q, float (r_accepted r) = inr x /\ 0 <= x.

End Malformed.

(** A step of the manager is steady when, once a budget is set, it
    returns and leaves the manager object and the store of lists as they
    were: all it may do is write to the terminal or read the clock. *)
Definition steady {A} (m : M FinanceManager.State A) : Prop :=
  forall (s : FinanceManager.State) (b : Budget.t),
    FinanceManager.budget (FinanceManager.self s) = Some b ->
    exists (a : A) (s' : FinanceManager.State),
      m s = (Ok a, s') /\
      FinanceManager.self s' = FinanceManager.self s /\
      store (FinanceManager.world s') = store (FinanceManager.world s).

(** The amounts held by a log, in order. *)
Definition amounts_of (log : TransactionLog.t) (w : World) : list Q :=
  map Transaction.amount (contents log w).

(** ** Notions used to state further properties *)

(** The iterator protocol of a [for] loop: call [next] until it stops, at
    most [fuel] times, and collect what it yields. *)
Fixpoint drain (fuel : nat) (it : PyList.iterator) : M Store (list Transaction.t) :=
  match fuel with
  | O => ret []
  | S fuel' =>
      step <- PyList.next it ;;
      match fst step with
      | None => ret []
      | Some x => xs <- drain fuel' (snd step) ;; ret (x :: xs)
      end
  end.

(** Two logs built one after the other. *)
Definition two_logs : M World (TransactionLog.t * TransactionLog.t) :=
  first <- TransactionLog.__init__ ;;
  second <- TransactionLog.__init__ ;;
  ret (first, second).

Section Typed.

Variable float : string -> string + Q.

(** Text that [float] does not take for a number. *)
Definition non_numeric (line : string) : Prop :=
  match float line with
  | inl _ => True
  | inr _ => False
  end.

(** The numbers typed at the amount prompts of a sequence of rounds, and
    those among them that were accepted. *)
Definition amounts_typed (rounds : list round) : list Q :=
  flat_map (fun r => numbers_entered float (r_rejected r ++ [r_accepted r])) rounds.

Definition amounts_accepted (rounds : list round) : list Q :=
  numbers_entered float (map r_accepted rounds).

End Typed.

(** The lines of the final report for a budget and the entries of a log. *)
Definition summary_lines (format_2f : Q -> string) (strftime_HMS : Z -> string)
    (b : Budget.t) (xs : list Transaction.t) : list string :=
  [printed (nl ++ "========== FINAL FINANCIAL SUMMARY ==========")%string;
   printed ("Initial Budget: UGX " ++ format_2f (Budget._amount b))%string;
   printed ("Total Expenses: UGX " ++ format_2f (Budget._spent b))%string;
   (if Qgt_bool (Budget._spent b) (Budget._amount b)
    then printed ("Deficit: UGX "
                  ++ format_2f (Budget._spent b - Budget._amount b))%string
    else printed ("Remaining Balance: UGX "
                  ++ format_2f (Budget._amount b - Budget._spent b))%string);
   printed (nl ++ "--- TRANSACTION LOG ---")%string]
  ++ imap (fun i x =>
             printed (pretty (S i) ++ ". " ++ Transaction.description x
                      ++ " - UGX " ++ format_2f (Transaction.amount x)
                      ++ " [" ++ strftime_HMS (Transaction.timestamp x) ++ "]")%string)
          xs.

Definition warning : string := "WARNING: You have exceeded your budget!".

(** Sample states: the log of [Decimal.state0] after two additions, and
    the manager of [Decimal.state0] with a budget of 100. *)
Definition sample_log : TransactionLog.t :=
  FinanceManager.transaction_log (FinanceManager.self Decimal.state0).

Definition sample_world : World :=
  after_add sample_log "tea" 3
    (after_add sample_log "coffee" 5 (FinanceManager.world Decimal.state0)).

Definition sample_state : FinanceManager.State :=
  with_budget (Budget.mk 100 0) Decimal.state0.

(** Five rounds as typed in a session; the first has a rejected amount. *)
Definition sample_rounds : list round :=
  [mkRound "coffee" ["-5"] "5"; mkRound "tea" [] "1"; mkRound "bus" [] "2";
   mkRound "book" [] "3"; mkRound "rent" [] "4"].

(** ** Notions used to state the properties of totals over binary64 *)

(** The total that a budget accumulates: start from zero and add the
    amounts from left to right, rounding after each addition. *)
Definition running_sum (amounts : list PrimFloat.float) : PrimFloat.float :=
  fold_left PrimFloat.add amounts 0%float.

(** Record the amounts one after the other; the first failure stops it. *)
Fixpoint record_all64 (amounts : list PrimFloat.float) : M Binary64.Budget.t unit :=
  match amounts with
  | [] => ret tt
  | a :: rest => Binary64.Budget.add_expense a ;; record_all64 rest
  end.

(** Try to record each amount in turn and go on after a rejected one, as
    a caller that catches the error does. *)
Definition attempt_all64 (amounts : list PrimFloat.float) (b : Binary64.Budget.t)
  : Binary64.Budget.t :=
  fold_left (fun b a => snd (Binary64.Budget.add_expense a b)) amounts b.

(** The amounts that [add_expense] accepts: those that are not below zero. *)
Definition accepted64 (amounts : list PrimFloat.float) : list PrimFloat.float :=
  List.filter (fun a => negb (a <? 0)%float) amounts.

(** The number that a double stands for, when it is finite. *)
Definition exact (x : PrimFloat.float) : option Q :=
  match Prim2SF x with
  | S754_zero _ => Some 0
  | S754_finite s m e => Some (inject_Z (if s then Z.neg m else Z.pos m) * 2 ^ e)
  | S754_infinity _ | S754_nan => None
  end.



(** The integer that a finite double with sign [s], mantissa [m] and
    exponent [e] stands for in units of [2 ^ ez]. *)
Definition aligned (s : bool) (m : positive) (e ez : Z) : Z :=
  cond_Zopp s (Z.pos (fst (shl_align m e ez))).

(** Python's [max(a, b)]: [a] unless [b > a]. *)
Definition py_max (a b : PrimFloat.float) : PrimFloat.float :=
  if (a <? b)%float then b else a.

(** ** Numbers *)

Lemma Qlt_bool_iff (a b : Q) : Qlt_bool a b = true <-> a < b.
Proof.
  unfold Qlt_bool. rewrite negb_true_iff. split.
  - intros H. apply Qnot_le_lt. intros Hle.
    apply Qle_bool_iff in Hle. congruence.
  - intros H. destruct (Qle_bool b a) eqn:E; [|reflexivity].
    apply Qle_bool_iff in E. exfalso. exact (Qlt_not_le _ _ H E).
Qed.

Lemma Qlt_bool_false_iff (a b : Q) : Qlt_bool a b = false <-> b <= a.
Proof.
  unfold Qlt_bool. rewrite negb_false_iff. apply Qle_bool_iff.
Qed.

Lemma Qgt_bool_iff (a b : Q) : Qgt_bool a b = true <-> b < a.
Proof. apply Qlt_bool_iff. Qed.

(** ** Budget *)






(** ** TransactionLog *)

Lemma count_spec (log : TransactionLog.t) (w : World) :
  TransactionLog.count log w = (Ok (length (contents log w)), w).
Proof. destruct w; reflexivity. Qed.

Lemma get_total_spec (log : TransactionLog.t) (w : World) :
  TransactionLog.get_total log w
  = (Ok (TransactionLog.sum (map Transaction.amount (contents log w))), w).
Proof. destruct w; reflexivity. Qed.

Lemma to_list_spec (log : TransactionLog.t) (w : World) :
  to_list log w = (Ok (contents log w), w).
Proof. destruct w; reflexivity. Qed.

Lemma add_transaction_spec (log : TransactionLog.t) (d : string) (a : Q) (w : World) :
  TransactionLog.add_transaction log d a w = (Ok (added d a w), after_add log d a w).
Proof. destruct w; reflexivity. Qed.

Lemma contents_after_add (log : TransactionLog.t) (d : string) (a : Q) (w : World) :
  contents log (after_add log d a w) = contents log w ++ [added d a w].
Proof.
  unfold contents at 1, after_add. simpl. rewrite lookup_insert_eq. reflexivity.
Qed.

Lemma pure_total_budget : pure_query Budget.total_budget.
Proof. intros b. exists (Budget._amount b). split; reflexivity. Qed.

Lemma pure_total_spent : pure_query Budget.total_spent.
Proof. intros b. exists (Budget._spent b). split; reflexivity. Qed.

Lemma pure_remaining : pure_query Budget.remaining.
Proof.
  intros b. exists (Budget._amount b - Budget._spent b). split; reflexivity.
Qed.

Lemma pure_is_exceeded : pure_query Budget.is_exceeded.
Proof.
  intros b. exists (Qgt_bool (Budget._spent b) (Budget._amount b)).
  split; reflexivity.
Qed.

Lemma pure_deficit : pure_query Budget.deficit.
Proof.
  intros [lim sp].
  exists (if Qgt_bool sp lim then sp - lim else 0).
  unfold Budget.deficit, Budget.is_exceeded, bind, get, ret. simpl.
  destruct (Qgt_bool sp lim) eqn:E; simpl; rewrite ?E; split; reflexivity.
Qed.

Lemma pure_count (log : TransactionLog.t) : pure_query (TransactionLog.count log).
Proof.
  intros w. exists (length (contents log w)).
  split; [apply count_spec|].
  unfold bind. rewrite !count_spec. reflexivity.
Qed.

Lemma pure_get_total (log : TransactionLog.t) :
  pure_query (TransactionLog.get_total log).
Proof.
  intros w.
  exists (TransactionLog.sum (map Transaction.amount (contents log w))).
  split; [apply get_total_spec|].
  unfold bind. rewrite !get_total_spec. reflexivity.
Qed.

(** C8: the queries of a budget (total_budget, total_spent, remaining,
    is_exceeded, deficit) and of a log (count, get_total) are pure: each
    returns a value, leaves the state unchanged, and returns the same
    value when called again on that state. *)
Theorem C8_queries_are_pure :
  pure_query Budget.total_budget /\
  pure_query Budget.total_spent /\
  pure_query Budget.remaining /\
  pure_query Budget.is_exceeded /\
  pure_query Budget.deficit /\
  (forall log : TransactionLog.t, pure_query (TransactionLog.count log)) /\
  (forall log : TransactionLog.t, pure_query (TransactionLog.get_total log)).
Proof.
  split; [exact pure_total_budget|].
  split; [exact pure_total_spent|].
  split; [exact pure_remaining|].
  split; [exact pure_is_exceeded|].
  split; [exact pure_deficit|].
  split; [exact pure_count | exact pure_get_total].
Qed.

(** C9: for every log, world, description and amount, negative amounts
    included, add_transaction succeeds, the count grows by exactly one,
    the iteration sequence is the former one followed by the returned
    transaction, and that transaction carries the given description and
    amount. *)
Theorem C9_add_transaction_appends
    (log : TransactionLog.t) (d : string) (a : Q) (w : World) :
  exists (t : Transaction.t) (w' : World) (n : nat) (xs : list Transaction.t),
    TransactionLog.add_transaction log d a w = (Ok t, w') /\
    TransactionLog.count log w = (Ok n, w) /\
    TransactionLog.count log w' = (Ok (S n), w') /\
    to_list log w = (Ok xs, w) /\
    to_list log w' = (Ok (xs ++ [t]), w') /\
    last (xs ++ [t]) = Some t /\
    Transaction.description t = d /\
    Transaction.amount t = a.
Proof.
  exists (added d a w), (after_add log d a w),
    (length (contents log w)), (contents log w).
  split; [apply add_transaction_spec|].
  split; [apply count_spec|].
  split.
  { rewrite count_spec, contents_after_add, length_app. simpl.
    rewrite Nat.add_1_r. reflexivity. }
  split; [apply to_list_spec|].
  split; [rewrite to_list_spec, contents_after_add; reflexivity|].
  split; [apply last_snoc|].
  split; reflexivity.
Qed.

(** C2, as the code has it: constructing a transaction never fails,
    whatever the sign of the amount, and add_transaction with any amount
    builds the transaction, appends it to the log and returns it. *)
Theorem C2_add_transaction_accepts_any_amount
    (log : TransactionLog.t) (d : string) (a : Q) (w : World) :
  (exists (t : Transaction.t) (c' : Clock),
     Transaction.__init__ d a (clock w) = (Ok t, c') /\
     Transaction.amount t = a /\
     exists w' : World,
       TransactionLog.add_transaction log d a w = (Ok t, w') /\
       contents log w' = contents log w ++ [t]).
Proof.
  exists (added d a w), (mkClock (readings (clock w)) (S (ticks (clock w)))).
  split; [reflexivity|]. split; [reflexivity|].
  exists (after_add log d a w).
  split; [apply add_transaction_spec | apply contents_after_add].
Qed.

(** C2 fails as stated: on a fresh log, add_transaction with the negative
    amount -5 returns a transaction and the log then counts one entry. *)
Lemma C2_negative_amount_is_appended :
  -5 < 0 /\
  exists (log : TransactionLog.t) (w : World) (t : Transaction.t) (w' : World),
    TransactionLog.__init__ Decimal.world0 = (Ok log, w) /\
    TransactionLog.add_transaction log "refund" (-5) w = (Ok t, w') /\
    Transaction.amount t = -5 /\
    TransactionLog.count log w' = (Ok 1%nat, w').
Proof.
  split; [reflexivity|].
  do 4 eexists.
  split; [vm_compute; reflexivity|].
  split; [vm_compute; reflexivity|].
  split; vm_compute; reflexivity.
Qed.

(** C6, as the code has it: the transactions accessor returns the list of
    the log itself.  A client that appends to what the accessor returned
    makes the count of the log grow by one. *)
Theorem C6_transactions_returns_internal_list
    (log : TransactionLog.t) (x : Transaction.t) (w : World) :
  exists (n : nat) (w' : World),
    TransactionLog.transactions log w = (Ok (TransactionLog._transactions log), w) /\
    client_appends log x w = (Ok (n, S n), w') /\
    contents log w' = contents log w ++ [x].
Proof.
  exists (length (contents log w)),
    {| store := <[TransactionLog._transactions log := contents log w ++ [x]]> (store w);
       clock := clock w; stdout := stdout w |}.
  split; [reflexivity|].
  split.
  - destruct w as [σ c out]. unfold client_appends, bind. simpl.
    unfold contents. simpl. rewrite lookup_insert_eq. simpl.
    rewrite length_app. simpl. rewrite Nat.add_1_r. reflexivity.
  - unfold contents at 1. simpl. rewrite lookup_insert_eq. reflexivity.
Qed.

Lemma clearing_the_view_empties_the_log (log : TransactionLog.t) (w : World) :
  exists w' : World, client_clears log w = (Ok 0%nat, w').
Proof.
  destruct w as [σ c out]. eexists.
  unfold client_clears, TransactionLog.transactions, TransactionLog.count,
    on_store, zoom, PyList.clear, PyList.len, PyList.items, bind, ret.
  cbn [store clock stdout].
  rewrite lookup_insert_eq. reflexivity.
Qed.

(** Iterating, by contrast, only reads: a client that advances an iterator
    over the log leaves its count as it was. *)
Lemma iteration_is_read_only (log : TransactionLog.t) (w : World) :
  exists n : nat, client_iterates log w = (Ok (n, n), w).
Proof.
  exists (length (contents log w)).
  destruct w as [σ c out].
  unfold client_iterates, TransactionLog.count, TransactionLog.__iter__,
    contents, on_store, zoom, PyList.next, PyList.len, PyList.iter,
    PyList.items, bind, ret.
  simpl.
  destruct (default [] (σ !! TransactionLog._transactions log) !! 0%nat);
    reflexivity.
Qed.

(** ** FinanceManager: one round of each prompt loop *)

Section Loops.

Variable float : string -> string + Q.

Lemma get_budget_cons (line : string) (rest : list string) (s : FinanceManager.State) :
  FinanceManager.get_budget float (line :: rest) s =
  match float line with
  | inl msg =>
      FinanceManager.get_budget float rest
        (with_world (wrote [budget_prompt;
                            printed (FinanceManager.invalid_message msg)]) s)
  | inr x =>
      if Qlt_bool x 0
      then FinanceManager.get_budget float rest
             (with_world
                (wrote [budget_prompt;
                        printed (FinanceManager.invalid_message
                                   "Budget cannot be negative")]) s)
      else (Ok (Budget.mk x 0, rest),
            with_budget (Budget.mk x 0) (with_world (wrote [budget_prompt]) s))
  end.
Proof.
  destruct s as [[b log] [σ c out]].
  cbn [FinanceManager.get_budget].
  unfold FinanceManager.report_invalid, try_except_ValueError,
    FinanceManager.py_float, bind, FinanceManager.in_world,
    FinanceManager.lift_result, FinanceManager.set_budget,
    zoom, print, write, modify, raise, ret, with_world, with_budget, wrote.
  destruct (float line) as [msg|x];
    [|unfold Budget.__init__; destruct (Qlt_bool x 0)];
    cbn [FinanceManager.world FinanceManager.self store clock stdout];
    rewrite <- ?app_assoc; reflexivity.
Qed.

Lemma get_transaction_loop_cons
    (d line : string) (rest : list string) (s : FinanceManager.State) :
  FinanceManager.get_transaction_loop float d (line :: rest) s =
  match float line with
  | inl msg =>
      FinanceManager.get_transaction_loop float d rest
        (with_world (wrote [amount_prompt;
                            printed (FinanceManager.invalid_message msg)]) s)
  | inr x =>
      let log := FinanceManager.transaction_log (FinanceManager.self s) in
      let s1 := with_world (fun w => after_add log d x (wrote [amount_prompt] w)) s in
      match FinanceManager.budget (FinanceManager.self s) with
      | None =>
          (Raise (AttributeError
                    "'NoneType' object has no attribute 'add_expense'"), s1)
      | Some b =>
          if Qlt_bool x 0
          then FinanceManager.get_transaction_loop float d rest
                 (with_world
                    (wrote [printed (FinanceManager.invalid_message
                                       "Expense amount cannot be negative")]) s1)
          else (Ok (added d x (FinanceManager.world s), rest),
                with_budget (spend x b) s1)
      end
  end.
Proof.
  destruct s as [[b log] [σ c out]].
  cbn [FinanceManager.get_transaction_loop].
  unfold FinanceManager.report_invalid, try_except_ValueError,
    FinanceManager.py_float, bind, FinanceManager.in_world,
    FinanceManager.on_budget, get,
    zoom, print, write, modify, raise, ret, with_world, with_budget, wrote.
  destruct (float line) as [msg|x].
  - cbn [FinanceManager.world FinanceManager.self store clock stdout].
    rewrite <- app_assoc. reflexivity.
  - cbn [FinanceManager.world FinanceManager.self store clock stdout
         FinanceManager.budget FinanceManager.transaction_log].
    rewrite add_transaction_spec.
    cbn [FinanceManager.world FinanceManager.self store clock stdout
         FinanceManager.budget FinanceManager.transaction_log].
    destruct b as [b|]; [|reflexivity].
    unfold Budget.add_expense, raise, modify.
    destruct (Qlt_bool x 0); reflexivity.
Qed.

Lemma wrote_wrote (first second : list string) (s : FinanceManager.State) :
  with_world (wrote second) (with_world (wrote first) s)
  = with_world (wrote (first ++ second)) s.
Proof.
  unfold with_world, wrote. simpl. rewrite app_assoc. reflexivity.
Qed.

Lemma malformed_cases (line : string) :
  malformed float line ->
  (exists msg, float line = inl msg) \/
  (exists x, float line = inr x /\ Qlt_bool x 0 = true).
Proof.
  unfold malformed. destruct (float line) as [msg|x]; intros H.
  - left. exists msg. reflexivity.
  - right. exists x. split; [reflexivity | apply Qlt_bool_iff; exact H].
Qed.

(** The budget prompt: the rejected lines are reported one by one and the
    first acceptable line sets the budget. *)
Lemma get_budget_retries
    (bad : list string) (line : string) (x : Q) (rest : list string) :
  Forall (malformed float) bad ->
  float line = inr x ->
  0 <= x ->
  forall s : FinanceManager.State,
    FinanceManager.get_budget float (bad ++ line :: rest) s
    = (Ok (Budget.mk x 0, rest),
       with_budget (Budget.mk x 0)
         (with_world
            (wrote (retries budget_prompt (budget_error float) bad
                    ++ [budget_prompt])) s)).
Proof.
  intros Hbad Hline Hx.
  apply Qlt_bool_false_iff in Hx.
  induction Hbad as [|l bad Hl _ IH]; intros s.
  - simpl app. rewrite get_budget_cons, Hline, Hx. reflexivity.
  - change ((l :: bad) ++ line :: rest) with (l :: (bad ++ line :: rest)).
    rewrite get_budget_cons.
    unfold retries, budget_error. simpl flat_map.
    destruct (malformed_cases l Hl) as [[msg E] | [y [E Hy]]]; rewrite E.
    + rewrite IH, wrote_wrote. reflexivity.
    + rewrite Hy, IH, wrote_wrote. reflexivity.
Qed.


End Loops.



(** ** FinanceManager: what a retried amount leaves in the log *)

Lemma amounts_of_wrote (log : TransactionLog.t) (chunks : list string) (w : World) :
  amounts_of log (wrote chunks w) = amounts_of log w.
Proof. reflexivity. Qed.

Lemma amounts_of_after_add (log : TransactionLog.t) (d : string) (a : Q) (w : World) :
  amounts_of log (after_add log d a w) = amounts_of log w ++ [a].
Proof.
  unfold amounts_of. rewrite contents_after_add, map_app. reflexivity.
Qed.

(** Every number typed at the amount prompt ends up in the log, the
    rejected negative ones included; only the accepted one reaches the
    budget. *)
Lemma get_transaction_loop_amounts
    (float : string -> string + Q)
    (d : string) (bad : list string) (line : string) (x : Q) (rest : list string) :
  Forall (malformed float) bad ->
  float line = inr x ->
  0 <= x ->
  forall (s : FinanceManager.State) (b : Budget.t),
    FinanceManager.budget (FinanceManager.self s) = Some b ->
    exists (t : Transaction.t) (s' : FinanceManager.State),
      FinanceManager.get_transaction_loop float d (bad ++ line :: rest) s
      = (Ok (t, rest), s') /\
      FinanceManager.budget (FinanceManager.self s') = Some (spend x b) /\
      FinanceManager.transaction_log (FinanceManager.self s')
      = FinanceManager.transaction_log (FinanceManager.self s) /\
      amounts_of (FinanceManager.transaction_log (FinanceManager.self s))
                 (FinanceManager.world s')
      = amounts_of (FinanceManager.transaction_log (FinanceManager.self s))
                   (FinanceManager.world s)
        ++ numbers_entered float bad ++ [x].
Proof.
  intros Hbad Hline Hx.
  apply Qlt_bool_false_iff in Hx.
  induction Hbad as [|l bad Hl _ IH]; intros s b Hb.
  - simpl app. rewrite get_transaction_loop_cons, Hline, Hb, Hx.
    eexists _, _. split; [reflexivity|].
    split; [reflexivity|]. split; [reflexivity|].
    unfold with_budget, with_world.
    cbn [FinanceManager.world FinanceManager.self].
    rewrite amounts_of_after_add, amounts_of_wrote. reflexivity.
  - change ((l :: bad) ++ line :: rest) with (l :: (bad ++ line :: rest)).
    rewrite get_transaction_loop_cons.
    unfold numbers_entered. simpl flat_map.
    destruct (malformed_cases float l Hl) as [[msg E] | [y [E Hy]]]; rewrite E.
    + destruct (IH (with_world
                      (wrote [amount_prompt;
                              printed (FinanceManager.invalid_message msg)]) s)
                   b Hb)
        as (t & s' & Hrun & Hbudget & Hlog & Hamounts).
      exists t, s'. split; [exact Hrun|].
      split; [exact Hbudget|]. split; [exact Hlog|].
      exact Hamounts.
    + rewrite Hb. cbv zeta. rewrite Hy.
      match goal with
      | |- context [FinanceManager.get_transaction_loop float d _ ?s1] =>
          destruct (IH s1 b Hb)
            as (t & s' & Hrun & Hbudget & Hlog & Hamounts)
      end.
      exists t, s'. split; [exact Hrun|].
      split; [exact Hbudget|]. split; [exact Hlog|].
      unfold with_world in Hamounts.
      cbn [FinanceManager.world FinanceManager.self] in Hamounts.
      rewrite amounts_of_wrote, amounts_of_after_add, amounts_of_wrote
        in Hamounts.
      rewrite Hamounts, <- !app_assoc. reflexivity.
Qed.

Lemma get_transaction_cons
    (float : string -> string + Q) (d : string) (lines : list string)
    (s : FinanceManager.State) :
  FinanceManager.get_transaction float (d :: lines) s
  = FinanceManager.get_transaction_loop float d lines
      (with_world (wrote [description_prompt]) s).
Proof. reflexivity. Qed.

Lemma fold_left_Qplus (xs : list Q) (acc : Q) :
  fold_left Qplus xs acc == acc + Qsum xs.
Proof.
  revert acc. induction xs as [|a xs IH]; intros acc; simpl.
  - lra.
  - rewrite IH. lra.
Qed.

Lemma sum_Qsum (xs : list Q) : TransactionLog.sum xs == Qsum xs.
Proof. unfold TransactionLog.sum. rewrite fold_left_Qplus. lra. Qed.

Lemma Qsum_app (xs ys : list Q) : Qsum (xs ++ ys) == Qsum xs + Qsum ys.
Proof.
  induction xs as [|a xs IH]; simpl.
  - lra.
  - rewrite IH. lra.
Qed.

(** One call of get_transaction: the count of the log grows by one for the
    accepted amount and by one more for every number that was rejected,
    and the distance between the total of the log and the spent total of
    the budget moves by the sum of the rejected numbers. *)
Lemma get_transaction_totals
    (float : string -> string + Q)
    (d : string) (bad : list string) (line : string) (x : Q) (rest : list string)
    (s : FinanceManager.State) (b : Budget.t) :
  Forall (malformed float) bad ->
  float line = inr x ->
  0 <= x ->
  FinanceManager.budget (FinanceManager.self s) = Some b ->
  let log := FinanceManager.transaction_log (FinanceManager.self s) in
  exists (t : Transaction.t) (s' : FinanceManager.State) (b' : Budget.t),
    FinanceManager.get_transaction float (d :: bad ++ line :: rest) s
    = (Ok (t, rest), s') /\
    FinanceManager.transaction_log (FinanceManager.self s') = log /\
    FinanceManager.budget (FinanceManager.self s') = Some b' /\
    length (contents log (FinanceManager.world s'))
    = (length (contents log (FinanceManager.world s))
       + length (numbers_entered float bad) + 1)%nat /\
    TransactionLog.sum (amounts_of log (FinanceManager.world s')) - Budget._spent b'
    == TransactionLog.sum (amounts_of log (FinanceManager.world s)) - Budget._spent b
       + Qsum (numbers_entered float bad).
Proof.
  intros Hbad Hline Hx Hb log.
  destruct (get_transaction_loop_amounts float d bad line x rest Hbad Hline Hx
              (with_world (wrote [description_prompt]) s) b Hb)
    as (t & s' & Hrun & Hbudget & Hlog & Hamounts).
  unfold with_world in Hamounts, Hlog.
  cbn [FinanceManager.world FinanceManager.self] in Hamounts, Hlog.
  fold log in Hamounts, Hlog. rewrite amounts_of_wrote in Hamounts.
  exists t, s', (spend x b).
  split; [rewrite get_transaction_cons; exact Hrun|].
  split; [exact Hlog|]. split; [exact Hbudget|]. split.
  - apply (f_equal (@length Q)) in Hamounts.
    unfold amounts_of in Hamounts.
    rewrite !length_app, !length_map in Hamounts. simpl in Hamounts. lia.
  - rewrite Hamounts, !sum_Qsum, !Qsum_app. simpl. lra.
Qed.

Lemma state0_fresh :
  FinanceManager.__init__ Decimal.world0
  = (Ok (FinanceManager.self Decimal.state0), FinanceManager.world Decimal.state0).
Proof. vm_compute. reflexivity. Qed.

(** C1 at a session where one negative amount is retried: the budget is
    set to 100, then the amount -5 is typed, rejected, and replaced by 5.
    get_transaction returns, the log holds the amounts -5 and 5 and totals
    0, and the budget has spent 5. *)
Theorem C1_log_total_differs_from_spent_after_retry :
  exists (b : Budget.t) (s1 : FinanceManager.State)
         (t : Transaction.t) (s2 : FinanceManager.State),
    FinanceManager.get_budget Decimal.float ["100"] Decimal.state0
    = (Ok (b, []), s1) /\
    FinanceManager.get_transaction Decimal.float ["coffee"; "-5"; "5"] s1
    = (Ok (t, []), s2) /\
    amounts_of (FinanceManager.transaction_log (FinanceManager.self s2))
               (FinanceManager.world s2) = [-5; 5] /\
    TransactionLog.get_total
      (FinanceManager.transaction_log (FinanceManager.self s2))
      (FinanceManager.world s2)
    = (Ok 0, FinanceManager.world s2) /\
    FinanceManager.on_budget "total_spent" Budget.total_spent s2 = (Ok 5, s2) /\
    ~ 0 == 5.
Proof.
  do 4 eexists.
  split; [vm_compute; reflexivity|].
  split; [vm_compute; reflexivity|].
  split; [vm_compute; reflexivity|].
  split; [vm_compute; reflexivity|].
  split; [vm_compute; reflexivity|].
  discriminate.
Qed.

(** C4 at a complete session where one negative amount is retried: the
    five rounds are played, the summary is printed, and the log then holds
    six transactions, the sixth being the last line of the summary. *)
Theorem C4_six_transactions_after_retry :
  exists s : FinanceManager.State,
    FinanceManager.run Decimal.float Decimal.format_2f Decimal.strftime_HMS
      ["100"; "coffee"; "-5"; "5"; "tea"; "1"; "bus"; "2"; "book"; "3";
       "rent"; "4"]
      Decimal.state0
    = (Ok [], s) /\
    TransactionLog.count
      (FinanceManager.transaction_log (FinanceManager.self s))
      (FinanceManager.world s)
    = (Ok 6%nat, FinanceManager.world s) /\
    last (stdout (FinanceManager.world s))
    = Some (printed "6. rent - UGX 4.00 [00:00:05]").
Proof.
  eexists.
  split; [vm_compute; reflexivity|].
  split; vm_compute; reflexivity.
Qed.

(** ** FinanceManager: steady steps *)

Create HintDb steady.

Lemma steady_ret {A} (a : A) : steady (ret a).
Proof. intros s b _. exists a, s. repeat split. Qed.

Lemma steady_get : steady get.
Proof. intros s b _. exists s, s. repeat split. Qed.

Lemma steady_bind {A B} (m : M FinanceManager.State A)
    (k : A -> M FinanceManager.State B) :
  steady m -> (forall a, steady (k a)) -> steady (bind m k).
Proof.
  intros Hm Hk s b Hb.
  destruct (Hm s b Hb) as (a & s1 & Hrun1 & Hself1 & Hstore1).
  assert (Hb1 : FinanceManager.budget (FinanceManager.self s1) = Some b)
    by (rewrite Hself1; exact Hb).
  destruct (Hk a s1 b Hb1) as (a' & s2 & Hrun2 & Hself2 & Hstore2).
  exists a', s2. unfold bind. rewrite Hrun1.
  split; [exact Hrun2|].
  split; [rewrite Hself2; exact Hself1 | rewrite Hstore2; exact Hstore1].
Qed.

Lemma steady_print (text : string) : steady (FinanceManager.in_world (print text)).
Proof. intros s b _. eexists _, _. split; [reflexivity|]. split; reflexivity. Qed.

Lemma steady_query {A} (name : string) (q : M Budget.t A) :
  pure_query q -> steady (FinanceManager.on_budget name q).
Proof.
  intros Hq [[bo log] w] b Hb. simpl in Hb. subst bo.
  destruct (Hq b) as (a & Hrun & _).
  exists a, (FinanceManager.mkState (FinanceManager.mk (Some b) log) w).
  unfold FinanceManager.on_budget. simpl. rewrite Hrun.
  repeat split.
Qed.

Lemma steady_iter (log : TransactionLog.t) :
  steady (FinanceManager.in_world (TransactionLog.__iter__ log)).
Proof.
  intros [m [σ c out]] b _. eexists _, _.
  split; [reflexivity|]. split; reflexivity.
Qed.

Lemma steady_remaining (it : PyList.iterator) :
  steady (FinanceManager.in_world (on_store (PyList.remaining it))).
Proof.
  intros [m [σ c out]] b _. eexists _, _.
  split; [reflexivity|]. split; reflexivity.
Qed.

Lemma steady_for_enumerate {A} (body : nat -> A -> M FinanceManager.State unit)
    (xs : list A) :
  (forall i x, steady (body i x)) ->
  forall start : nat, steady (FinanceManager.for_enumerate start xs body).
Proof.
  intros Hbody. induction xs as [|x xs IH]; intros start; simpl.
  - apply steady_ret.
  - apply steady_bind; [apply Hbody | intros _; apply IH].
Qed.

#[local] Hint Resolve steady_ret steady_get steady_print steady_iter
  steady_remaining steady_query pure_total_budget pure_total_spent
  pure_remaining pure_is_exceeded pure_deficit : steady.

(** One statement of a method body: the first step is steady by the hints,
    what follows remains to be shown. *)
Tactic Notation "steady_step" "as" simple_intropattern(x) :=
  apply steady_bind; [solve [auto with steady] | intros x].

Lemma steady_check_budget_status : steady FinanceManager.check_budget_status.
Proof.
  unfold FinanceManager.check_budget_status.
  steady_step as exceeded. destruct exceeded; auto with steady.
Qed.

Lemma steady_print_summary (format_2f : Q -> string) (strftime_HMS : Z -> string) :
  steady (FinanceManager.print_summary format_2f strftime_HMS).
Proof.
  unfold FinanceManager.print_summary.
  steady_step as s0. steady_step as _.
  steady_step as total_budget. steady_step as _.
  steady_step as total_spent. steady_step as _.
  steady_step as exceeded.
  apply steady_bind.
  { destruct exceeded; steady_step as amount; auto with steady. }
  intros _. steady_step as _. steady_step as it. steady_step as xs.
  apply steady_for_enumerate. intros i x. auto with steady.
Qed.

(** ** FinanceManager: the five rounds *)

Lemma contents_same_store (log : TransactionLog.t) (w w' : World) :
  store w' = store w -> contents log w' = contents log w.
Proof. unfold contents. intros ->. reflexivity. Qed.

(** The rounds of the expense loop are played one after the other, each
    returning once; the log gains one entry per round and one more per
    number rejected on the way. *)
Lemma for_range_rounds
    (float : string -> string + Q) (rounds : list round) (rest : list string) :
  Forall (playable float) rounds ->
  forall (start : nat) (s : FinanceManager.State) (b : Budget.t),
    FinanceManager.budget (FinanceManager.self s) = Some b ->
    let log := FinanceManager.transaction_log (FinanceManager.self s) in
    exists s' : FinanceManager.State,
      FinanceManager.for_range start (length rounds)
        (fun i lines =>
           FinanceManager.in_world
             (print (nl ++ "Transaction " ++ pretty (i + 1)%nat)%string) ;;
           recorded <- FinanceManager.get_transaction float lines ;;
           FinanceManager.check_budget_status ;;
           ret (snd recorded))
        (flat_map typed rounds ++ rest) s
      = (Ok rest, s') /\
      FinanceManager.transaction_log (FinanceManager.self s') = log /\
      (exists b' : Budget.t,
         FinanceManager.budget (FinanceManager.self s') = Some b') /\
      length (contents log (FinanceManager.world s'))
      = (length (contents log (FinanceManager.world s)) + length rounds
         + length (numbers_entered float (flat_map r_rejected rounds)))%nat.
Proof.
  induction 1 as [|r rounds [Hbad (x & Hline & Hx)] _ IH]; intros start s b Hb log.
  - exists s. simpl. split; [reflexivity|]. split; [reflexivity|].
    split; [exists b; exact Hb | lia].
  - set (s0 := with_world
                 (wrote [printed (nl ++ "Transaction " ++ pretty (start + 1)%nat)%string])
                 s).
    destruct (get_transaction_totals float (r_description r) (r_rejected r)
                (r_accepted r) x (flat_map typed rounds ++ rest) s0 b
                Hbad Hline Hx Hb)
      as (t & s1 & b1 & Hrun & Hlog1 & Hb1 & Hlen1 & _).
    destruct (steady_check_budget_status s1 b1 Hb1)
      as ([] & s2 & Hcheck & Hself2 & Hstore2).
    assert (Hb2 : FinanceManager.budget (FinanceManager.self s2) = Some b1)
      by (rewrite Hself2; exact Hb1).
    destruct (IH (S start) s2 b1 Hb2) as (s' & Hloop & Hlog' & Hb' & Hlen').
    cbv zeta in Hlog1, Hlen1, Hlog', Hlen'.
    rewrite Hself2, Hlog1 in Hlog', Hlen'.
    change (FinanceManager.transaction_log (FinanceManager.self s0)) with log
      in Hlog', Hlen', Hlen1.
    rewrite (contents_same_store log _ _ Hstore2) in Hlen'.
    exists s'. split; [|split; [exact Hlog'|split; [exact Hb'|]]].
    + assert (Hlines : flat_map typed (r :: rounds) ++ rest
                       = r_description r
                         :: r_rejected r
                            ++ r_accepted r :: flat_map typed rounds ++ rest).
      { cbn [flat_map]. unfold typed at 1.
        rewrite <- app_assoc, <- app_comm_cons, <- app_assoc. reflexivity. }
      rewrite Hlines.
      cbn [length FinanceManager.for_range].
      unfold bind at 1. unfold bind at 1.
      change (FinanceManager.in_world
                (print (nl ++ "Transaction " ++ pretty (start + 1)%nat)%string) s)
        with (Ok tt, s0).
      cbv iota beta. unfold bind at 1. rewrite Hrun.
      cbv iota beta. unfold bind at 1. rewrite Hcheck.
      cbv iota beta. unfold ret at 1. cbn [snd]. exact Hloop.
    + rewrite Hlen', Hlen1.
      unfold numbers_entered. simpl flat_map. rewrite flat_map_app, length_app.
      change (contents log (FinanceManager.world s0))
        with (contents log (FinanceManager.world s)).
      simpl length. fold (numbers_entered float). lia.
Qed.

(** A complete session: whatever is rejected at the prompts, [run] sets
    the budget, plays exactly five rounds, prints the summary and returns;
    the log then holds five entries plus one for every number that was
    rejected at an amount prompt. *)
Lemma run_complete_session
    (float : string -> string + Q) (format_2f : Q -> string)
    (strftime_HMS : Z -> string)
    (bad : list string) (line : string) (L : Q)
    (rounds : list round) (rest : list string) (s : FinanceManager.State) :
  Forall (malformed float) bad ->
  float line = inr L ->
  0 <= L ->
  length rounds = 5%nat ->
  Forall (playable float) rounds ->
  let log := FinanceManager.transaction_log (FinanceManager.self s) in
  exists s' : FinanceManager.State,
    FinanceManager.run float format_2f strftime_HMS
      (bad ++ line :: flat_map typed rounds ++ rest) s
    = (Ok rest, s') /\
    FinanceManager.transaction_log (FinanceManager.self s') = log /\
    length (contents log (FinanceManager.world s'))
    = (length (contents log (FinanceManager.world s)) + 5
       + length (numbers_entered float (flat_map r_rejected rounds)))%nat.
Proof.
  intros Hbad Hline HL Hfive Hrounds log.
  set (s0 := with_world
               (wrote [printed ("Welcome to the Personal Finance Manager" ++ nl)%string])
               s).
  set (s1 := with_budget (Budget.mk L 0)
               (with_world
                  (wrote (retries budget_prompt (budget_error float) bad
                          ++ [budget_prompt])) s0)).
  set (s2 := with_world
               (wrote [printed (nl ++ "Enter at least 5 transactions.")%string]) s1).
  destruct (for_range_rounds float rounds rest Hrounds 0%nat s2 (Budget.mk L 0) eq_refl)
    as (s3 & Hloop & Hlog3 & (b3 & Hb3) & Hlen3).
  cbv zeta in Hlog3, Hlen3. rewrite Hfive in Hloop, Hlen3.
  change (FinanceManager.transaction_log (FinanceManager.self s2)) with log
    in Hlog3, Hlen3.
  change (contents log (FinanceManager.world s2))
    with (contents log (FinanceManager.world s)) in Hlen3.
  destruct (steady_print_summary format_2f strftime_HMS s3 b3 Hb3)
    as ([] & s4 & Hsummary & Hself4 & Hstore4).
  exists s4. split; [|split].
  - unfold FinanceManager.run. unfold bind at 1.
    change (FinanceManager.in_world
              (print ("Welcome to the Personal Finance Manager" ++ nl)%string) s)
      with (Ok tt, s0).
    cbv iota beta. unfold bind at 1.
    rewrite (get_budget_retries float bad line L (flat_map typed rounds ++ rest)
               Hbad Hline HL s0).
    fold s1. cbv iota beta. cbn [snd]. unfold bind at 1.
    change (FinanceManager.in_world
              (print (nl ++ "Enter at least 5 transactions.")%string) s1)
      with (Ok tt, s2).
    cbv iota beta. unfold bind at 1.
    unfold FinanceManager.record_five. rewrite Hloop.
    cbv iota beta. unfold bind at 1. rewrite Hsummary. reflexivity.
  - rewrite Hself4. exact Hlog3.
  - rewrite (contents_same_store log _ _ Hstore4). exact Hlen3.
Qed.

(** ** The scenarios of the specification *)

Example scenario_over_budget :
  exists b : Budget.t,
    record_all [30; 40; 50] (Budget.mk 100 0) = (Ok tt, b) /\
    Budget.total_spent b = (Ok 120, b) /\
    Budget.is_exceeded b = (Ok true, b) /\
    Budget.deficit b = (Ok 20, b).
Proof. eexists. repeat split; vm_compute; reflexivity. Qed.

Example scenario_within_budget :
  exists b : Budget.t,
    record_all [30; 40] (Budget.mk 100 0) = (Ok tt, b) /\
    Budget.total_spent b = (Ok 70, b) /\
    Budget.is_exceeded b = (Ok false, b) /\
    Budget.remaining b = (Ok 30, b).
Proof. eexists. repeat split; vm_compute; reflexivity. Qed.

Example scenario_negative_budget :
  Budget.__init__ (-10) = Raise (ValueError "Budget cannot be negative").
Proof. reflexivity. Qed.

Example scenario_coffee_lunch :
  let log := FinanceManager.transaction_log (FinanceManager.self Decimal.state0) in
  exists (w : World) (xs : list Transaction.t),
    (TransactionLog.add_transaction log "coffee" 5 ;;
     TransactionLog.add_transaction log "lunch" 15 ;;
     to_list log) (FinanceManager.world Decimal.state0)
    = (Ok xs, w) /\
    map Transaction.description xs = ["coffee"; "lunch"] /\
    TransactionLog.count log w = (Ok 2%nat, w) /\
    TransactionLog.get_total log w = (Ok 20, w).
Proof. do 2 eexists. repeat split; vm_compute; reflexivity. Qed.

(** ** Further properties: TransactionLog *)

Lemma init_log_spec (w : World) :
  TransactionLog.__init__ w
  = (Ok (TransactionLog.mk (fresh (dom (store w)))),
     {| store := <[fresh (dom (store w)) := []]> (store w);
        clock := clock w; stdout := stdout w |}).
Proof. destruct w; reflexivity. Qed.

(** X4: two logs built one after the other start empty and do not share
    their list: a transaction added to the first appears in the first and
    not in the second. *)
Theorem X4_logs_do_not_share_entries (w : World) (d : string) (a : Q) :
  exists (log1 log2 : TransactionLog.t) (w2 : World)
         (t : Transaction.t) (w3 : World),
    two_logs w = (Ok (log1, log2), w2) /\
    TransactionLog._transactions log1 <> TransactionLog._transactions log2 /\
    contents log1 w2 = [] /\
    contents log2 w2 = [] /\
    TransactionLog.add_transaction log1 d a w2 = (Ok t, w3) /\
    contents log1 w3 = [t] /\
    contents log2 w3 = [].
Proof.
  set (l1 := fresh (dom (store w))).
  set (σ1 := <[l1 := []]> (store w)).
  set (l2 := fresh (dom σ1)).
  assert (Hne : l1 <> l2).
  { intros E. apply (is_fresh (dom σ1)). fold l2. rewrite <- E.
    unfold σ1. rewrite dom_insert_L. set_solver. }
  set (w2 := {| store := <[l2 := []]> σ1; clock := clock w; stdout := stdout w |}).
  exists (TransactionLog.mk l1), (TransactionLog.mk l2), w2,
    (added d a w2), (after_add (TransactionLog.mk l1) d a w2).
  assert (H1 : contents (TransactionLog.mk l1) w2 = []).
  { unfold contents, w2. simpl.
    rewrite lookup_insert_ne by (intros E; apply Hne; symmetry; exact E).
    unfold σ1. rewrite lookup_insert_eq. reflexivity. }
  assert (H2 : contents (TransactionLog.mk l2) w2 = []).
  { unfold contents, w2. simpl. rewrite lookup_insert_eq. reflexivity. }
  split.
  { unfold two_logs, bind. rewrite init_log_spec.
    rewrite init_log_spec. reflexivity. }
  split; [exact Hne|]. split; [exact H1|]. split; [exact H2|].
  split; [apply add_transaction_spec|].
  split; [rewrite contents_after_add, H1; reflexivity|].
  unfold contents at 1, after_add. cbn [store TransactionLog._transactions].
  rewrite lookup_insert_ne by exact Hne.
  exact H2.
Qed.

(** X5: adding a transaction to a log, or building a new log, leaves
    every other log that exists as it was. *)
Theorem X5_other_logs_are_untouched
    (log other : TransactionLog.t) (d : string) (a : Q) (w : World) :
  TransactionLog._transactions other <> TransactionLog._transactions log ->
  TransactionLog._transactions other ∈ dom (store w) ->
  contents other (snd (TransactionLog.add_transaction log d a w)) = contents other w /\
  exists (new : TransactionLog.t) (w' : World),
    TransactionLog.__init__ w = (Ok new, w') /\
    TransactionLog._transactions new <> TransactionLog._transactions other /\
    contents new w' = [] /\
    contents other w' = contents other w.
Proof.
  intros Hne Hdom. split.
  - rewrite add_transaction_spec. unfold contents at 1, after_add.
    cbn [snd store]. rewrite lookup_insert_ne by (intros E; apply Hne; symmetry; exact E).
    reflexivity.
  - assert (Hfresh : fresh (dom (store w)) <> TransactionLog._transactions other).
    { intros E. apply (is_fresh (dom (store w))). rewrite E. exact Hdom. }
    eexists _, _. split; [apply init_log_spec|].
    split; [exact Hfresh|]. unfold contents. cbn [store TransactionLog._transactions].
    split; [rewrite lookup_insert_eq; reflexivity|].
    rewrite lookup_insert_ne by exact Hfresh. reflexivity.
Qed.

Lemma X5_other_logs_are_untouched_witness :
  contents sample_log
    (snd (TransactionLog.add_transaction (TransactionLog.mk 2%positive) "bus" 2
            sample_world))
  = contents sample_log sample_world.
Proof.
  assert (Hne : TransactionLog._transactions sample_log
                <> TransactionLog._transactions (TransactionLog.mk 2%positive))
    by discriminate.
  assert (Hdom : TransactionLog._transactions sample_log ∈ dom (store sample_world)).
  { apply elem_of_dom. eexists. vm_compute. reflexivity. }
  exact (proj1 (X5_other_logs_are_untouched (TransactionLog.mk 2%positive)
                  sample_log "bus" 2 sample_world Hne Hdom)).
Defined.

Lemma drain_spec (l : loc) (σ : Store) (fuel : nat) :
  forall i : nat,
    (length (default [] (σ !! l)) < i + fuel)%nat ->
    drain fuel (PyList.mkIter l i) σ = (Ok (drop i (default [] (σ !! l))), σ).
Proof.
  induction fuel as [|fuel IH]; intros i Hfuel.
  - simpl. rewrite drop_ge by lia. reflexivity.
  - cbn [drain]. unfold bind at 1. unfold PyList.next, bind at 1, PyList.items.
    cbn [PyList.it_list PyList.it_index].
    destruct (default [] (σ !! l) !! i) as [x|] eqn:E.
    + unfold ret at 1. cbn [fst snd]. unfold bind at 1.
      rewrite (IH (S i)) by lia.
      unfold ret. rewrite (drop_S _ _ _ E). reflexivity.
    + unfold ret at 1. cbn [fst]. unfold ret.
      apply lookup_ge_None in E. rewrite drop_ge by exact E. reflexivity.
Qed.

(** X6: a [for] loop over a log, which calls [next] on its iterator until
    it stops, visits every entry once in insertion order within count + 1
    calls and changes nothing; a second loop starts again from the first
    entry; [len(log)] and [log.count] both give the number of entries
    visited. *)
Theorem X6_iteration_visits_every_entry
    (log : TransactionLog.t) (w : World) (fuel : nat) :
  (length (contents log w) < fuel)%nat ->
  (it <- TransactionLog.__iter__ log ;;
   xs <- on_store (drain fuel it) ;;
   again <- TransactionLog.__iter__ log ;;
   ys <- on_store (drain fuel again) ;;
   ret (xs, ys)) w
  = (Ok (contents log w, contents log w), w) /\
  TransactionLog.__len__ log w = (Ok (length (contents log w)), w) /\
  TransactionLog.count log w = (Ok (length (contents log w)), w).
Proof.
  intros Hfuel. split; [|split; apply count_spec].
  destruct w as [σ c out]. unfold contents in *. cbn [store] in *.
  unfold bind, TransactionLog.__iter__, on_store, zoom, PyList.iter, ret.
  cbn [store clock stdout].
  rewrite (drain_spec _ σ fuel 0%nat) by (simpl; exact Hfuel).
  cbn [store clock stdout].
  rewrite (drain_spec _ σ fuel 0%nat) by (simpl; exact Hfuel).
  reflexivity.
Qed.

Lemma X6_iteration_visits_every_entry_witness :
  (it <- TransactionLog.__iter__ sample_log ;;
   xs <- on_store (drain 3 it) ;;
   again <- TransactionLog.__iter__ sample_log ;;
   ys <- on_store (drain 3 again) ;;
   ret (xs, ys)) sample_world
  = (Ok (contents sample_log sample_world, contents sample_log sample_world),
     sample_world).
Proof.
  assert (Hfuel : (length (contents sample_log sample_world) < 3)%nat)
    by (vm_compute; lia).
  exact (proj1 (X6_iteration_visits_every_entry sample_log sample_world 3%nat Hfuel)).
Defined.

(** ** Further properties: the prompts of FinanceManager *)

Lemma get_budget_nil (float : string -> string + Q) (s : FinanceManager.State) :
  FinanceManager.get_budget float [] s
  = (Raise EOFError, with_world (wrote [budget_prompt]) s).
Proof. reflexivity. Qed.

Lemma get_transaction_loop_nil
    (float : string -> string + Q) (d : string) (s : FinanceManager.State) :
  FinanceManager.get_transaction_loop float d [] s
  = (Raise EOFError, with_world (wrote [amount_prompt]) s).
Proof. reflexivity. Qed.

Lemma get_budget_eof
    (float : string -> string + Q) (bad : list string) :
  Forall (malformed float) bad ->
  forall s : FinanceManager.State,
    FinanceManager.get_budget float bad s
    = (Raise EOFError,
       with_world (wrote (retries budget_prompt (budget_error float) bad
                          ++ [budget_prompt])) s).
Proof.
  induction 1 as [|l bad Hl _ IH]; intros s.
  - apply get_budget_nil.
  - rewrite get_budget_cons.
    unfold retries, budget_error. simpl flat_map.
    destruct (malformed_cases float l Hl) as [[msg E] | [y [E Hy]]]; rewrite E.
    + rewrite IH, wrote_wrote. reflexivity.
    + rewrite Hy, IH, wrote_wrote. reflexivity.
Qed.

(** X7: when standard input ends before a budget is accepted, get_budget
    raises EOFError (its handler only catches ValueError) after reporting
    each rejected line, and so does run, before any round is played; the
    manager, its budget included, the store and the clock are as before. *)
Theorem X7_end_of_input_at_the_budget_prompt
    (float : string -> string + Q) (format_2f : Q -> string)
    (strftime_HMS : Z -> string) (bad : list string) (s : FinanceManager.State) :
  Forall (malformed float) bad ->
  FinanceManager.get_budget float bad s
  = (Raise EOFError,
     with_world (wrote (retries budget_prompt (budget_error float) bad
                        ++ [budget_prompt])) s) /\
  FinanceManager.run float format_2f strftime_HMS bad s
  = (Raise EOFError,
     with_world
       (wrote (printed ("Welcome to the Personal Finance Manager" ++ nl)%string
               :: retries budget_prompt (budget_error float) bad
               ++ [budget_prompt])) s).
Proof.
  intros Hbad. split; [apply get_budget_eof; exact Hbad|].
  unfold FinanceManager.run, bind at 1.
  change (FinanceManager.in_world
            (print ("Welcome to the Personal Finance Manager" ++ nl)%string) s)
    with (Ok tt,
          with_world
            (wrote [printed ("Welcome to the Personal Finance Manager" ++ nl)%string])
            s).
  cbv iota beta. unfold bind at 1.
  rewrite (get_budget_eof float bad Hbad), wrote_wrote. reflexivity.
Qed.

Lemma X7_end_of_input_at_the_budget_prompt_witness :
  FinanceManager.get_budget Decimal.float ["abc"; ""; "-5"] Decimal.state0
  = (Raise EOFError,
     with_world (wrote (retries budget_prompt (budget_error Decimal.float)
                          ["abc"; ""; "-5"] ++ [budget_prompt]))
       Decimal.state0).
Proof.
  apply (X7_end_of_input_at_the_budget_prompt Decimal.float Decimal.format_2f
           Decimal.strftime_HMS ["abc"; ""; "-5"] Decimal.state0).
  repeat constructor.
Defined.

(** X8: an accepted budget replaces whatever budget the manager had by a
    new one that has spent nothing, and choosing it touches neither the
    log, nor the lists in the store, nor the clock. *)
Theorem X8_get_budget_starts_a_new_budget
    (float : string -> string + Q) (bad : list string) (line : string) (x : Q)
    (rest : list string) (s : FinanceManager.State) :
  Forall (malformed float) bad ->
  float line = inr x ->
  0 <= x ->
  exists s' : FinanceManager.State,
    FinanceManager.get_budget float (bad ++ line :: rest) s
    = (Ok (Budget.mk x 0, rest), s') /\
    FinanceManager.budget (FinanceManager.self s') = Some (Budget.mk x 0) /\
    FinanceManager.transaction_log (FinanceManager.self s')
    = FinanceManager.transaction_log (FinanceManager.self s) /\
    store (FinanceManager.world s') = store (FinanceManager.world s) /\
    clock (FinanceManager.world s') = clock (FinanceManager.world s).
Proof.
  intros Hbad Hline Hx. eexists.
  split; [apply get_budget_retries; assumption|].
  repeat split.
Qed.

Lemma X8_get_budget_starts_a_new_budget_witness :
  exists s' : FinanceManager.State,
    FinanceManager.get_budget Decimal.float ["-1"; "50"]
      (with_budget (Budget.mk 100 70) Decimal.state0)
    = (Ok (Budget.mk 50 0, []), s') /\
    FinanceManager.budget (FinanceManager.self s') = Some (Budget.mk 50 0).
Proof.
  destruct (X8_get_budget_starts_a_new_budget Decimal.float ["-1"] "50" 50 []
              (with_budget (Budget.mk 100 70) Decimal.state0))
    as (s' & Hrun & Hbudget & _).
  - repeat constructor.
  - reflexivity.
  - discriminate.
  - exists s'. split; [exact Hrun | exact Hbudget].
Defined.

Lemma get_transaction_loop_eof
    (float : string -> string + Q) (d : string) (bad : list string) :
  Forall (malformed float) bad ->
  forall (s : FinanceManager.State) (b : Budget.t),
    FinanceManager.budget (FinanceManager.self s) = Some b ->
    exists s' : FinanceManager.State,
      FinanceManager.get_transaction_loop float d bad s = (Raise EOFError, s') /\
      FinanceManager.self s' = FinanceManager.self s /\
      amounts_of (FinanceManager.transaction_log (FinanceManager.self s))
                 (FinanceManager.world s')
      = amounts_of (FinanceManager.transaction_log (FinanceManager.self s))
                   (FinanceManager.world s)
        ++ numbers_entered float bad.
Proof.
  induction 1 as [|l bad Hl _ IH]; intros s b Hb.
  - rewrite get_transaction_loop_nil. eexists.
    split; [reflexivity|]. split; [reflexivity|].
    unfold with_world. cbn [FinanceManager.world].
    rewrite amounts_of_wrote, app_nil_r. reflexivity.
  - rewrite get_transaction_loop_cons.
    unfold numbers_entered. simpl flat_map.
    destruct (malformed_cases float l Hl) as [[msg E] | [y [E Hy]]]; rewrite E.
    + destruct (IH (with_world
                      (wrote [amount_prompt;
                              printed (FinanceManager.invalid_message msg)]) s)
                   b Hb)
        as (s' & Hrun & Hself & Hamounts).
      exists s'. split; [exact Hrun|]. split; [exact Hself|]. exact Hamounts.
    + rewrite Hb. cbv zeta. rewrite Hy.
      match goal with
      | |- context [FinanceManager.get_transaction_loop float d _ ?s1] =>
          destruct (IH s1 b Hb) as (s' & Hrun & Hself & Hamounts)
      end.
      exists s'. split; [exact Hrun|]. split; [exact Hself|].
      unfold with_world in Hamounts.
      cbn [FinanceManager.world FinanceManager.self] in Hamounts.
      rewrite amounts_of_wrote, amounts_of_after_add, amounts_of_wrote
        in Hamounts.
      rewrite Hamounts, <- !app_assoc. reflexivity.
Qed.

(** X9: when standard input ends during get_transaction, at the
    description prompt or while the amount is retried, EOFError is raised
    and nothing is recorded in the budget; the negative numbers rejected
    before the end are in the log all the same. *)
Theorem X9_get_transaction_end_of_input
    (float : string -> string + Q) (d : string) (bad : list string)
    (s : FinanceManager.State) (b : Budget.t) :
  Forall (malformed float) bad ->
  FinanceManager.budget (FinanceManager.self s) = Some b ->
  FinanceManager.get_transaction float [] s
  = (Raise EOFError, with_world (wrote [description_prompt]) s) /\
  exists s' : FinanceManager.State,
    FinanceManager.get_transaction float (d :: bad) s = (Raise EOFError, s') /\
    FinanceManager.self s' = FinanceManager.self s /\
    amounts_of (FinanceManager.transaction_log (FinanceManager.self s))
               (FinanceManager.world s')
    = amounts_of (FinanceManager.transaction_log (FinanceManager.self s))
                 (FinanceManager.world s)
      ++ numbers_entered float bad.
Proof.
  intros Hbad Hb. split; [reflexivity|].
  destruct (get_transaction_loop_eof float d bad Hbad
              (with_world (wrote [description_prompt]) s) b Hb)
    as (s' & Hrun & Hself & Hamounts).
  exists s'. split; [rewrite get_transaction_cons; exact Hrun|].
  split; [exact Hself|]. exact Hamounts.
Qed.

Lemma X9_get_transaction_end_of_input_witness :
  exists s' : FinanceManager.State,
    FinanceManager.get_transaction Decimal.float ["coffee"; "abc"; "-5"] sample_state
    = (Raise EOFError, s') /\
    amounts_of sample_log (FinanceManager.world s') = [-5].
Proof.
  destruct (X9_get_transaction_end_of_input Decimal.float "coffee" ["abc"; "-5"]
              sample_state (Budget.mk 100 0))
    as (_ & s' & Hrun & _ & Hamounts).
  - repeat constructor.
  - reflexivity.
  - exists s'. split; [exact Hrun | exact Hamounts].
Defined.

Lemma get_transaction_loop_no_budget
    (float : string -> string + Q) (d : string) (bad : list string)
    (line : string) (x : Q) (rest : list string) :
  Forall (non_numeric float) bad ->
  float line = inr x ->
  forall s : FinanceManager.State,
    FinanceManager.budget (FinanceManager.self s) = None ->
    exists s' : FinanceManager.State,
      FinanceManager.get_transaction_loop float d (bad ++ line :: rest) s
      = (Raise (AttributeError "'NoneType' object has no attribute 'add_expense'"),
         s') /\
      FinanceManager.self s' = FinanceManager.self s /\
      amounts_of (FinanceManager.transaction_log (FinanceManager.self s))
                 (FinanceManager.world s')
      = amounts_of (FinanceManager.transaction_log (FinanceManager.self s))
                   (FinanceManager.world s)
        ++ [x].
Proof.
  intros Hbad Hline.
  induction Hbad as [|l bad Hl _ IH]; intros s Hb.
  - simpl app. rewrite get_transaction_loop_cons, Hline, Hb.
    eexists. split; [reflexivity|]. split; [reflexivity|].
    unfold with_world. cbn [FinanceManager.world].
    rewrite amounts_of_after_add, amounts_of_wrote. reflexivity.
  - change ((l :: bad) ++ line :: rest) with (l :: (bad ++ line :: rest)).
    rewrite get_transaction_loop_cons.
    unfold non_numeric in Hl. destruct (float l) as [msg|y]; [|contradiction].
    destruct (IH (with_world
                    (wrote [amount_prompt;
                            printed (FinanceManager.invalid_message msg)]) s)
                 Hb)
      as (s' & Hrun & Hself & Hamounts).
    exists s'. split; [exact Hrun|]. split; [exact Hself|]. exact Hamounts.
Qed.

(** X10: get_transaction on a manager that has no budget yet does not
    survive the first number typed at the amount prompt, whatever its
    sign: the AttributeError of [self.budget.add_expense] is not caught,
    and the transaction is already in the log when it is raised. *)
Theorem X10_get_transaction_without_budget
    (float : string -> string + Q) (d : string) (bad : list string)
    (line : string) (x : Q) (rest : list string) (s : FinanceManager.State) :
  Forall (non_numeric float) bad ->
  float line = inr x ->
  FinanceManager.budget (FinanceManager.self s) = None ->
  exists s' : FinanceManager.State,
    FinanceManager.get_transaction float (d :: bad ++ line :: rest) s
    = (Raise (AttributeError "'NoneType' object has no attribute 'add_expense'"),
       s') /\
    FinanceManager.budget (FinanceManager.self s') = None /\
    amounts_of (FinanceManager.transaction_log (FinanceManager.self s))
               (FinanceManager.world s')
    = amounts_of (FinanceManager.transaction_log (FinanceManager.self s))
                 (FinanceManager.world s)
      ++ [x].
Proof.
  intros Hbad Hline Hb.
  destruct (get_transaction_loop_no_budget float d bad line x rest Hbad Hline
              (with_world (wrote [description_prompt]) s) Hb)
    as (s' & Hrun & Hself & Hamounts).
  exists s'. split; [rewrite get_transaction_cons; exact Hrun|].
  split; [rewrite Hself; exact Hb | exact Hamounts].
Qed.

Lemma X10_get_transaction_without_budget_witness :
  exists s' : FinanceManager.State,
    FinanceManager.get_transaction Decimal.float ["coffee"; "abc"; "5"; "6"]
      Decimal.state0
    = (Raise (AttributeError "'NoneType' object has no attribute 'add_expense'"),
       s') /\
    amounts_of sample_log (FinanceManager.world s') = [5].
Proof.
  destruct (X10_get_transaction_without_budget Decimal.float "coffee" ["abc"] "5" 5
              ["6"] Decimal.state0)
    as (s' & Hrun & _ & Hamounts).
  - repeat constructor.
  - reflexivity.
  - reflexivity.
  - exists s'. split; [exact Hrun | exact Hamounts].
Defined.


(** ** Further properties: the reports of FinanceManager *)

(** X12: check_budget_status prints the warning exactly when the spent
    total is greater than the limit, prints nothing otherwise, and changes
    nothing else. *)
Theorem X12_warning_iff_exceeded (s : FinanceManager.State) (b : Budget.t) :
  FinanceManager.budget (FinanceManager.self s) = Some b ->
  FinanceManager.check_budget_status s
  = (Ok tt,
     if Qgt_bool (Budget._spent b) (Budget._amount b)
     then with_world (wrote [printed warning]) s
     else s) /\
  (Qgt_bool (Budget._spent b) (Budget._amount b) = true
   <-> Budget._amount b < Budget._spent b).
Proof.
  intros Hb. split; [|apply Qgt_bool_iff].
  destruct s as [[bo log] [σ c out]]. simpl in Hb. subst bo.
  unfold FinanceManager.check_budget_status, FinanceManager.on_budget,
    Budget.is_exceeded, bind, get, ret.
  simpl.
  destruct (Qgt_bool (Budget._spent b) (Budget._amount b)); reflexivity.
Qed.

Lemma X12_warning_iff_exceeded_witness :
  FinanceManager.check_budget_status (with_budget (Budget.mk 100 120) Decimal.state0)
  = (Ok tt,
     with_world (wrote [printed warning])
       (with_budget (Budget.mk 100 120) Decimal.state0)).
Proof.
  exact (proj1 (X12_warning_iff_exceeded
                  (with_budget (Budget.mk 100 120) Decimal.state0)
                  (Budget.mk 100 120) eq_refl)).
Defined.

Lemma with_world_wrote_nil (s : FinanceManager.State) :
  with_world (wrote []) s = s.
Proof.
  destruct s as [m [σ c out]]. unfold with_world, wrote. simpl.
  rewrite app_nil_r. reflexivity.
Qed.

Lemma for_enumerate_print {A} (f : nat -> A -> string)
    (body : nat -> A -> M FinanceManager.State unit) :
  (forall i x s, body i x s = (Ok tt, with_world (wrote [printed (f i x)]) s)) ->
  forall (xs : list A) (start : nat) (s : FinanceManager.State),
    FinanceManager.for_enumerate start xs body s
    = (Ok tt,
       with_world (wrote (imap (fun i x => printed (f (start + i)%nat x)) xs)) s).
Proof.
  intros Hbody. induction xs as [|x xs IH]; intros start s.
  - simpl. rewrite with_world_wrote_nil. reflexivity.
  - cbn [FinanceManager.for_enumerate]. unfold bind at 1.
    rewrite Hbody, IH, wrote_wrote.
    rewrite imap_cons, Nat.add_0_r.
    rewrite (imap_ext ((fun i y => printed (f (start + i)%nat y)) ∘ S)
               (fun i y => printed (f (S start + i)%nat y)) xs)
      by (intros i y _; simpl; do 2 f_equal; lia).
    reflexivity.
Qed.

(** X13: with a budget set, print_summary writes the banner, the budget,
    the expenses, then the deficit if the budget is exceeded and the
    remaining balance otherwise, then one line per entry of the log in
    insertion order numbered from 1; it writes 5 lines plus one per entry
    and changes nothing but the output. *)
Theorem X13_summary_output
    (format_2f : Q -> string) (strftime_HMS : Z -> string)
    (s : FinanceManager.State) (b : Budget.t) :
  FinanceManager.budget (FinanceManager.self s) = Some b ->
  let xs := contents (FinanceManager.transaction_log (FinanceManager.self s))
                     (FinanceManager.world s) in
  FinanceManager.print_summary format_2f strftime_HMS s
  = (Ok tt, with_world (wrote (summary_lines format_2f strftime_HMS b xs)) s) /\
  length (summary_lines format_2f strftime_HMS b xs) = (5 + length xs)%nat.
Proof.
  intros Hb xs. split.
  - destruct s as [[bo log] [σ c out]]. simpl in Hb. subst bo.
    unfold xs, contents, summary_lines.
    cbn [FinanceManager.world FinanceManager.self FinanceManager.transaction_log
         store].
    cbv [FinanceManager.print_summary bind get ret FinanceManager.on_budget
         FinanceManager.in_world zoom print write modify
         Budget.total_budget Budget.total_spent Budget.is_exceeded
         FinanceManager.budget FinanceManager.self FinanceManager.world
         FinanceManager.transaction_log store clock stdout
         TransactionLog.__iter__ on_store PyList.iter PyList.remaining
         PyList.items PyList.it_list PyList.it_index
         TransactionLog._transactions].
    destruct (Qgt_bool (Budget._spent b) (Budget._amount b)) eqn:E;
      cbv [Budget.deficit Budget.remaining Budget.is_exceeded bind get ret
           FinanceManager.budget FinanceManager.self FinanceManager.world
           FinanceManager.transaction_log store clock stdout];
      rewrite ?E;
      (erewrite for_enumerate_print
         with (f := fun i x =>
                      (pretty i ++ ". " ++ Transaction.description x
                       ++ " - UGX " ++ format_2f (Transaction.amount x)
                       ++ " [" ++ strftime_HMS (Transaction.timestamp x) ++ "]")%string);
       [|intros i x [m [σ' c' out']]; reflexivity]);
      unfold with_world, wrote;
      cbn [FinanceManager.world FinanceManager.self store clock stdout];
      rewrite drop_0, <- !app_assoc; reflexivity.
  - unfold summary_lines. rewrite length_app, length_imap. reflexivity.
Qed.

Lemma X13_summary_output_witness :
  FinanceManager.print_summary Decimal.format_2f Decimal.strftime_HMS
    (with_world (fun _ => sample_world) sample_state)
  = (Ok tt,
     with_world
       (wrote (summary_lines Decimal.format_2f Decimal.strftime_HMS
                 (Budget.mk 100 0) (contents sample_log sample_world)))
       (with_world (fun _ => sample_world) sample_state)).
Proof.
  exact (proj1 (X13_summary_output Decimal.format_2f Decimal.strftime_HMS
                  (with_world (fun _ => sample_world) sample_state)
                  (Budget.mk 100 0) eq_refl)).
Defined.

(** X14: on a manager that has no budget, check_budget_status raises
    AttributeError at once and print_summary raises it after the banner;
    neither changes the manager or the store. *)
Theorem X14_reports_need_a_budget
    (format_2f : Q -> string) (strftime_HMS : Z -> string)
    (s : FinanceManager.State) :
  FinanceManager.budget (FinanceManager.self s) = None ->
  FinanceManager.check_budget_status s
  = (Raise (AttributeError "'NoneType' object has no attribute 'is_exceeded'"), s) /\
  FinanceManager.print_summary format_2f strftime_HMS s
  = (Raise (AttributeError "'NoneType' object has no attribute 'total_budget'"),
     with_world
       (wrote [printed (nl ++ "========== FINAL FINANCIAL SUMMARY ==========")%string])
       s).
Proof.
  intros Hb. destruct s as [[bo log] [σ c out]]. simpl in Hb. subst bo.
  split; reflexivity.
Qed.

Lemma X14_reports_need_a_budget_witness :
  FinanceManager.check_budget_status Decimal.state0
  = (Raise (AttributeError "'NoneType' object has no attribute 'is_exceeded'"),
     Decimal.state0).
Proof.
  exact (proj1 (X14_reports_need_a_budget Decimal.format_2f Decimal.strftime_HMS
                  Decimal.state0 eq_refl)).
Defined.

(** ** Further properties: whole sessions *)

Lemma get_transaction_amounts
    (float : string -> string + Q)
    (d : string) (bad : list string) (line : string) (x : Q) (rest : list string)
    (s : FinanceManager.State) (b : Budget.t) :
  Forall (malformed float) bad ->
  float line = inr x ->
  0 <= x ->
  FinanceManager.budget (FinanceManager.self s) = Some b ->
  exists (t : Transaction.t) (s' : FinanceManager.State),
    FinanceManager.get_transaction float (d :: bad ++ line :: rest) s
    = (Ok (t, rest), s') /\
    FinanceManager.budget (FinanceManager.self s') = Some (spend x b) /\
    FinanceManager.transaction_log (FinanceManager.self s')
    = FinanceManager.transaction_log (FinanceManager.self s) /\
    amounts_of (FinanceManager.transaction_log (FinanceManager.self s))
               (FinanceManager.world s')
    = amounts_of (FinanceManager.transaction_log (FinanceManager.self s))
                 (FinanceManager.world s)
      ++ numbers_entered float (bad ++ [line]).
Proof.
  intros Hbad Hline Hx Hb.
  destruct (get_transaction_loop_amounts float d bad line x rest Hbad Hline Hx
              (with_world (wrote [description_prompt]) s) b Hb)
    as (t & s' & Hrun & Hbudget & Hlog & Hamounts).
  exists t, s'. split; [rewrite get_transaction_cons; exact Hrun|].
  split; [exact Hbudget|]. split; [exact Hlog|].
  unfold with_world in Hamounts.
  cbn [FinanceManager.world FinanceManager.self] in Hamounts.
  rewrite amounts_of_wrote in Hamounts. rewrite Hamounts.
  unfold numbers_entered. rewrite flat_map_app. simpl flat_map.
  rewrite Hline. reflexivity.
Qed.

Lemma amounts_of_same_store (log : TransactionLog.t) (w w' : World) :
  store w' = store w -> amounts_of log w' = amounts_of log w.
Proof. unfold amounts_of. intros H. rewrite (contents_same_store _ _ _ H). reflexivity. Qed.

(** The first rounds of the expense loop, amount by amount, with the
    rounds that are left still to be played. *)
Lemma for_range_rounds_then
    (float : string -> string + Q) (rounds : list round)
    (more : nat) (lines : list string) :
  Forall (playable float) rounds ->
  forall (start : nat) (s : FinanceManager.State) (b : Budget.t),
    FinanceManager.budget (FinanceManager.self s) = Some b ->
    exists (s' : FinanceManager.State) (b' : Budget.t),
      FinanceManager.for_range start (length rounds + more)
        (fun i lines =>
           FinanceManager.in_world
             (print (nl ++ "Transaction " ++ pretty (i + 1)%nat)%string) ;;
           recorded <- FinanceManager.get_transaction float lines ;;
           FinanceManager.check_budget_status ;;
           ret (snd recorded))
        (flat_map typed rounds ++ lines) s
      = FinanceManager.for_range (start + length rounds) more
          (fun i lines =>
             FinanceManager.in_world
               (print (nl ++ "Transaction " ++ pretty (i + 1)%nat)%string) ;;
             recorded <- FinanceManager.get_transaction float lines ;;
             FinanceManager.check_budget_status ;;
             ret (snd recorded))
          lines s' /\
      FinanceManager.transaction_log (FinanceManager.self s')
      = FinanceManager.transaction_log (FinanceManager.self s) /\
      FinanceManager.budget (FinanceManager.self s') = Some b' /\
      Budget._amount b' = Budget._amount b /\
      Budget._spent b'
      = fold_left Qplus (amounts_accepted float rounds) (Budget._spent b) /\
      amounts_of (FinanceManager.transaction_log (FinanceManager.self s))
                 (FinanceManager.world s')
      = amounts_of (FinanceManager.transaction_log (FinanceManager.self s))
                   (FinanceManager.world s)
        ++ amounts_typed float rounds.
Proof.
  induction 1 as [|r rounds [Hbad (x & Hline & Hx)] _ IH]; intros start s b Hb.
  - exists s, b. cbn [length flat_map app Nat.add]. rewrite Nat.add_0_r.
    split; [reflexivity|]. split; [reflexivity|].
    split; [exact Hb|]. split; [reflexivity|].
    split; [reflexivity|].
    unfold amounts_typed. simpl. rewrite app_nil_r. reflexivity.
  - set (log := FinanceManager.transaction_log (FinanceManager.self s)).
    set (s0 := with_world
                 (wrote [printed (nl ++ "Transaction " ++ pretty (start + 1)%nat)%string])
                 s).
    destruct (get_transaction_amounts float (r_description r) (r_rejected r)
                (r_accepted r) x (flat_map typed rounds ++ lines) s0 b
                Hbad Hline Hx Hb)
      as (t & s1 & Hrun & Hb1 & Hlog1 & Hamounts1).
    destruct (steady_check_budget_status s1 (spend x b) Hb1)
      as ([] & s2 & Hcheck & Hself2 & Hstore2).
    assert (Hb2 : FinanceManager.budget (FinanceManager.self s2) = Some (spend x b))
      by (rewrite Hself2; exact Hb1).
    destruct (IH (S start) s2 (spend x b) Hb2)
      as (s' & b' & Hloop & Hlog' & Hb' & Hlim' & Hspent' & Hamounts').
    rewrite Hself2, Hlog1 in Hlog', Hamounts'.
    change (FinanceManager.transaction_log (FinanceManager.self s0)) with log
      in Hlog', Hamounts', Hamounts1.
    rewrite (amounts_of_same_store log _ _ Hstore2), Hamounts1 in Hamounts'.
    change (amounts_of log (FinanceManager.world s0))
      with (amounts_of log (FinanceManager.world s)) in Hamounts'.
    exists s', b'. split; [|split; [exact Hlog'|split; [exact Hb'|]]].
    + assert (Hlines : flat_map typed (r :: rounds) ++ lines
                       = r_description r
                         :: r_rejected r
                            ++ r_accepted r :: flat_map typed rounds ++ lines).
      { cbn [flat_map]. unfold typed at 1.
        rewrite <- app_assoc, <- app_comm_cons, <- app_assoc. reflexivity. }
      rewrite Hlines.
      cbn [length Nat.add FinanceManager.for_range].
      unfold bind at 1. unfold bind at 1.
      change (FinanceManager.in_world
                (print (nl ++ "Transaction " ++ pretty (start + 1)%nat)%string) s)
        with (Ok tt, s0).
      cbv iota beta. unfold bind at 1. rewrite Hrun.
      cbv iota beta. unfold bind at 1. rewrite Hcheck.
      cbv iota beta. unfold ret at 1. cbn [snd].
      rewrite Nat.add_succ_r. exact Hloop.
    + split; [exact Hlim'|]. split.
      * rewrite Hspent'. unfold amounts_accepted, numbers_entered.
        simpl map. simpl flat_map. rewrite Hline. reflexivity.
      * rewrite Hamounts'. unfold amounts_typed. simpl flat_map.
        rewrite <- !app_assoc. reflexivity.
Qed.

(** The rounds of the expense loop, amount by amount. *)
Lemma for_range_rounds_amounts
    (float : string -> string + Q) (rounds : list round) (rest : list string) :
  Forall (playable float) rounds ->
  forall (start : nat) (s : FinanceManager.State) (b : Budget.t),
    FinanceManager.budget (FinanceManager.self s) = Some b ->
    exists (s' : FinanceManager.State) (b' : Budget.t),
      FinanceManager.for_range start (length rounds)
        (fun i lines =>
           FinanceManager.in_world
             (print (nl ++ "Transaction " ++ pretty (i + 1)%nat)%string) ;;
           recorded <- FinanceManager.get_transaction float lines ;;
           FinanceManager.check_budget_status ;;
           ret (snd recorded))
        (flat_map typed rounds ++ rest) s
      = (Ok rest, s') /\
      FinanceManager.transaction_log (FinanceManager.self s')
      = FinanceManager.transaction_log (FinanceManager.self s) /\
      FinanceManager.budget (FinanceManager.self s') = Some b' /\
      Budget._amount b' = Budget._amount b /\
      Budget._spent b'
      = fold_left Qplus (amounts_accepted float rounds) (Budget._spent b) /\
      amounts_of (FinanceManager.transaction_log (FinanceManager.self s))
                 (FinanceManager.world s')
      = amounts_of (FinanceManager.transaction_log (FinanceManager.self s))
                   (FinanceManager.world s)
        ++ amounts_typed float rounds.
Proof.
  intros Hrounds start s b Hb.
  destruct (for_range_rounds_then float rounds 0%nat rest Hrounds start s b Hb)
    as (s' & b' & Hloop & Hrest).
  rewrite Nat.add_0_r in Hloop.
  exists s', b'. split; [exact Hloop | exact Hrest].
Qed.

(** A complete session, amount by amount. *)
Lemma run_amounts
    (float : string -> string + Q) (format_2f : Q -> string)
    (strftime_HMS : Z -> string)
    (bad : list string) (line : string) (L : Q)
    (rounds : list round) (rest : list string) (s : FinanceManager.State) :
  Forall (malformed float) bad ->
  float line = inr L ->
  0 <= L ->
  length rounds = 5%nat ->
  Forall (playable float) rounds ->
  exists (s' : FinanceManager.State) (b' : Budget.t),
    FinanceManager.run float format_2f strftime_HMS
      (bad ++ line :: flat_map typed rounds ++ rest) s
    = (Ok rest, s') /\
    FinanceManager.transaction_log (FinanceManager.self s')
    = FinanceManager.transaction_log (FinanceManager.self s) /\
    FinanceManager.budget (FinanceManager.self s') = Some b' /\
    Budget._amount b' = L /\
    Budget._spent b' = fold_left Qplus (amounts_accepted float rounds) 0 /\
    amounts_of (FinanceManager.transaction_log (FinanceManager.self s))
               (FinanceManager.world s')
    = amounts_of (FinanceManager.transaction_log (FinanceManager.self s))
                 (FinanceManager.world s)
      ++ amounts_typed float rounds.
Proof.
  intros Hbad Hline HL Hfive Hrounds.
  set (log := FinanceManager.transaction_log (FinanceManager.self s)).
  set (s0 := with_world
               (wrote [printed ("Welcome to the Personal Finance Manager" ++ nl)%string])
               s).
  set (s1 := with_budget (Budget.mk L 0)
               (with_world
                  (wrote (retries budget_prompt (budget_error float) bad
                          ++ [budget_prompt])) s0)).
  set (s2 := with_world
               (wrote [printed (nl ++ "Enter at least 5 transactions.")%string]) s1).
  destruct (for_range_rounds_amounts float rounds rest Hrounds 0%nat s2
              (Budget.mk L 0) eq_refl)
    as (s3 & b3 & Hloop & Hlog3 & Hb3 & Hlim3 & Hspent3 & Hamounts3).
  rewrite Hfive in Hloop.
  change (FinanceManager.transaction_log (FinanceManager.self s2)) with log
    in Hlog3, Hamounts3.
  change (amounts_of log (FinanceManager.world s2))
    with (amounts_of log (FinanceManager.world s)) in Hamounts3.
  simpl in Hlim3, Hspent3.
  destruct (steady_print_summary format_2f strftime_HMS s3 b3 Hb3)
    as ([] & s4 & Hsummary & Hself4 & Hstore4).
  exists s4, b3. split; [|split; [|split; [|split; [|split]]]].
  - unfold FinanceManager.run. unfold bind at 1.
    change (FinanceManager.in_world
              (print ("Welcome to the Personal Finance Manager" ++ nl)%string) s)
      with (Ok tt, s0).
    cbv iota beta. unfold bind at 1.
    rewrite (get_budget_retries float bad line L (flat_map typed rounds ++ rest)
               Hbad Hline HL s0).
    fold s1. cbv iota beta. cbn [snd]. unfold bind at 1.
    change (FinanceManager.in_world
              (print (nl ++ "Enter at least 5 transactions.")%string) s1)
      with (Ok tt, s2).
    cbv iota beta. unfold bind at 1.
    unfold FinanceManager.record_five. rewrite Hloop.
    cbv iota beta. unfold bind at 1. rewrite Hsummary. reflexivity.
  - rewrite Hself4. exact Hlog3.
  - rewrite Hself4. exact Hb3.
  - exact Hlim3.
  - exact Hspent3.
  - rewrite (amounts_of_same_store log _ _ Hstore4). exact Hamounts3.
Qed.

Lemma sample_rounds_playable : Forall (playable Decimal.float) sample_rounds.
Proof.
  repeat (constructor;
          [split; [repeat constructor
                  | eexists; split; [reflexivity | discriminate]]|]).
  constructor.
Qed.

(** X16: main builds its own manager, whose log starts empty whatever the
    store already holds, and on a complete session returns normally; the
    log of that manager then holds exactly the numbers typed at the amount
    prompts, in order, and the lists that existed before are untouched. *)
Theorem X16_main_complete_session
    (float : string -> string + Q) (format_2f : Q -> string)
    (strftime_HMS : Z -> string)
    (bad : list string) (line : string) (L : Q)
    (rounds : list round) (rest : list string) (w : World) :
  Forall (malformed float) bad ->
  float line = inr L ->
  0 <= L ->
  length rounds = 5%nat ->
  Forall (playable float) rounds ->
  exists w' : World,
    FinanceManager.main float format_2f strftime_HMS
      (bad ++ line :: flat_map typed rounds ++ rest) w
    = (Ok rest, w') /\
    (fresh (dom (store w)) ∉ dom (store w)) /\
    amounts_of (TransactionLog.mk (fresh (dom (store w)))) w'
    = amounts_typed float rounds.
Proof.
  intros Hbad Hline HL Hfive Hrounds.
  set (l := fresh (dom (store w))).
  set (w1 := {| store := <[l := []]> (store w); clock := clock w;
                stdout := stdout w |}).
  set (manager := {| FinanceManager.budget := None;
                     FinanceManager.transaction_log := TransactionLog.mk l |}).
  destruct (run_amounts float format_2f strftime_HMS bad line L rounds rest
              (FinanceManager.mkState manager w1) Hbad Hline HL Hfive Hrounds)
    as (s' & b' & Hrun & _ & _ & _ & _ & Hamounts).
  cbn [FinanceManager.self FinanceManager.world FinanceManager.transaction_log
       manager] in Hamounts.
  exists (FinanceManager.world s'). split; [|split].
  - unfold FinanceManager.main, bind at 1.
    unfold FinanceManager.__init__, bind at 1. rewrite init_log_spec.
    fold l w1. unfold ret at 1. fold manager. rewrite Hrun. reflexivity.
  - apply is_fresh.
  - rewrite Hamounts. unfold amounts_of at 1, contents, w1.
    cbn [store TransactionLog._transactions]. rewrite lookup_insert_eq.
    reflexivity.
Qed.

Lemma X16_main_complete_session_witness :
  exists w' : World,
    FinanceManager.main Decimal.float Decimal.format_2f Decimal.strftime_HMS
      ("100" :: flat_map typed sample_rounds) Decimal.world0
    = (Ok [], w') /\
    amounts_of sample_log w' = [-5; 5; 1; 2; 3; 4].
Proof.
  destruct (X16_main_complete_session Decimal.float Decimal.format_2f
              Decimal.strftime_HMS [] "100" 100 sample_rounds [] Decimal.world0)
    as (w' & Hrun & _ & Hamounts).
  - constructor.
  - reflexivity.
  - discriminate.
  - reflexivity.
  - exact sample_rounds_playable.
  - exists w'. split.
    + rewrite <- Hrun. reflexivity.
    + exact Hamounts.
Defined.


(** ** Budget over binary64 *)

(** *** Comparison and subtraction of doubles *)

Module Binary64Facts.

Local Open Scope Z_scope.

Lemma digits2_pos_bounds (m : positive) :
  2 ^ (Z.pos (digits2_pos m) - 1) <= Z.pos m < 2 ^ Z.pos (digits2_pos m).
Proof.
  induction m as [m IH|m IH|]; cbn [digits2_pos].
  - rewrite Pos2Z.inj_succ.
    replace (Z.succ (Z.pos (digits2_pos m)) - 1) with (Z.succ (Z.pos (digits2_pos m) - 1)) by lia.
    rewrite !Z.pow_succ_r by lia. lia.
  - rewrite Pos2Z.inj_succ.
    replace (Z.succ (Z.pos (digits2_pos m)) - 1) with (Z.succ (Z.pos (digits2_pos m) - 1)) by lia.
    rewrite !Z.pow_succ_r by lia. lia.
  - simpl. lia.
Qed.

Lemma iter_xO_value (m d : positive) :
  Z.pos (Pos.iter xO m d) = Z.pos m * 2 ^ Z.pos d.
Proof.
  induction d as [|d IH] using Pos.peano_ind.
  - simpl. lia.
  - rewrite Pos.iter_succ, Pos2Z.inj_succ, Z.pow_succ_r by lia.
    rewrite Pos2Z.inj_xO, IH. lia.
Qed.

Lemma shl_align_value (m : positive) (e ez : Z) :
  ez <= e -> Z.pos (fst (shl_align m e ez)) = Z.pos m * 2 ^ (e - ez).
Proof.
  intros Hle. unfold shl_align.
  destruct (ez - e) as [|d|d] eqn:E.
  - replace (e - ez) with 0 by lia. simpl fst. lia.
  - lia.
  - simpl fst. rewrite iter_xO_value. f_equal. f_equal. lia.
Qed.

Lemma bounded_digits (m : positive) (e : Z) :
  bounded prec emax m e = true ->
  -1074 <= e /\ Z.pos (digits2_pos m) <= 53 /\
  (-1074 < e -> Z.pos (digits2_pos m) = 53).
Proof.
  unfold bounded, canonical_mantissa, fexp, emin, prec, emax.
  intros H. apply andb_true_iff in H. destruct H as [H _].
  apply Z.eqb_eq in H. lia.
Qed.

Lemma aligned_lt (m1 m2 : positive) (e1 e2 : Z) :
  bounded prec emax m1 e1 = true ->
  bounded prec emax m2 e2 = true ->
  e1 < e2 ->
  Z.pos (fst (shl_align m1 e1 e1)) < Z.pos (fst (shl_align m2 e2 e1)).
Proof.
  intros H1 H2 Hlt.
  rewrite !shl_align_value by lia. rewrite Z.sub_diag, Z.pow_0_r.
  destruct (bounded_digits m1 e1 H1) as (Hmin1 & Hd1 & _).
  destruct (bounded_digits m2 e2 H2) as (_ & _ & Hd2).
  specialize (Hd2 ltac:(lia)).
  pose proof (digits2_pos_bounds m1) as [_ Hup].
  pose proof (digits2_pos_bounds m2) as [Hlow _].
  rewrite Hd2 in Hlow.
  assert (Hp1 : 2 ^ Z.pos (digits2_pos m1) <= 2 ^ 53)
    by (apply Z.pow_le_mono_r; lia).
  assert (Hp2 : 2 ^ 1 <= 2 ^ (e2 - e1)) by (apply Z.pow_le_mono_r; lia).
  change (53 - 1) with 52 in Hlow.
  change (2 ^ 53) with (2 * 2 ^ 52) in Hp1. change (2 ^ 1) with 2 in Hp2.
  nia.
Qed.

Lemma SFcompare_aligned (s1 s2 : bool) (m1 m2 : positive) (e1 e2 : Z) :
  bounded prec emax m1 e1 = true ->
  bounded prec emax m2 e2 = true ->
  SFcompare (S754_finite s1 m1 e1) (S754_finite s2 m2 e2)
  = Some (Z.compare (aligned s1 m1 e1 (Z.min e1 e2)) (aligned s2 m2 e2 (Z.min e1 e2))).
Proof.
  intros H1 H2. unfold aligned. cbn [SFcompare]. f_equal.
  destruct (Z.compare_spec e1 e2) as [E|E|E].
  - subst e2. rewrite Z.min_id.
    assert (Hs : forall m, fst (shl_align m e1 e1) = m).
    { intros m. unfold shl_align. rewrite Z.sub_diag. reflexivity. }
    rewrite !Hs. destruct s1, s2; reflexivity.
  - rewrite Z.min_l by lia.
    pose proof (aligned_lt m1 m2 e1 e2 H1 H2 E) as Hlt.
    destruct s1, s2; cbn [cond_Zopp]; symmetry.
    + apply Z.compare_gt_iff. lia.
    + reflexivity.
    + reflexivity.
    + apply Z.compare_lt_iff. lia.
  - rewrite Z.min_r by lia.
    pose proof (aligned_lt m2 m1 e2 e1 H2 H1 ltac:(lia)) as Hlt.
    destruct s1, s2; cbn [cond_Zopp]; symmetry.
    + apply Z.compare_lt_iff. lia.
    + reflexivity.
    + reflexivity.
    + apply Z.compare_gt_iff. lia.
Qed.

Lemma binary_round_aux_shape (sx : bool) (mx ex : Z) (lx : location) :
  binary_round_aux prec emax sx mx ex lx = S754_nan \/
  binary_round_aux prec emax sx mx ex lx = S754_zero sx \/
  binary_round_aux prec emax sx mx ex lx = S754_infinity sx \/
  exists m e, binary_round_aux prec emax sx mx ex lx = S754_finite sx m e.
Proof.
  unfold binary_round_aux.
  destruct (shr_fexp prec emax mx ex lx) as [mrs' e'].
  destruct (shr_fexp prec emax _ e' loc_Exact) as [mrs'' e''].
  destruct (shr_m mrs'') as [|m|m];
    [right; left; reflexivity | | left; reflexivity].
  destruct (Z.leb e'' (Z.sub emax prec));
    [right; right; right; exists m, e''; reflexivity
    | right; right; left; reflexivity].
Qed.

Lemma binary_normalize_shape (D ez : Z) :
  let r := binary_normalize prec emax D ez false in
  match D with
  | Z0 => r = S754_zero false
  | Zpos _ =>
      r = S754_nan \/ r = S754_zero false \/ r = S754_infinity false \/
      exists m e, r = S754_finite false m e
  | Zneg _ =>
      r = S754_nan \/ r = S754_zero true \/ r = S754_infinity true \/
      exists m e, r = S754_finite true m e
  end.
Proof.
  destruct D as [|p|p]; cbn [binary_normalize]; [reflexivity| |];
    unfold binary_round;
    destruct (shl_align p ez _) as [mz ez'];
    apply binary_round_aux_shape.
Qed.

(** How the difference of two doubles sits against zero, compared with how
    the two doubles sit against each other. *)
Lemma SFsub_against_zero (x y : spec_float) :
  valid_binary x = true ->
  valid_binary y = true ->
  (SFltb y x = true -> SFltb (SF64sub x y) (S754_zero false) = false) /\
  (SFltb y x = false ->
   SFeqb (SF64sub x y) (SF64sub x y) = true ->
   SFltb (SF64sub x y) (S754_zero false) = true \/
   SFeqb (S754_zero false) (SF64sub x y) = true).
Proof.
  intros Hx Hy.
  destruct x as [sx|sx| |sx mx ex]; destruct y as [sy|sy| |sy my ey];
    try (destruct sx; destruct sy; cbv [SF64sub SFsub SFltb SFeqb SFcompare negb];
         split; intros; try discriminate; auto; fail);
    try (destruct sx; cbv [SF64sub SFsub SFltb SFeqb SFcompare negb];
         split; intros; try discriminate; auto; fail);
    try (destruct sy; cbv [SF64sub SFsub SFltb SFeqb SFcompare negb];
         split; intros; try discriminate; auto; fail);
    try (cbv [SF64sub SFsub SFltb SFeqb SFcompare negb];
         split; intros; try discriminate; auto; fail).
  cbn [valid_binary] in Hx, Hy.
  unfold SFltb at 1 3. rewrite (SFcompare_aligned sy sx my mx ey ex Hy Hx).
  unfold SF64sub, SFsub.
  rewrite (Z.min_comm ey ex).
  fold (aligned sx mx ex (Z.min ex ey)). fold (aligned sy my ey (Z.min ex ey)).
  set (X := aligned sx mx ex (Z.min ex ey)).
  set (Y := aligned sy my ey (Z.min ex ey)).
  pose proof (binary_normalize_shape (X - Y) (Z.min ex ey)) as Hshape.
  cbv zeta in Hshape.
  destruct (Z.compare_spec Y X) as [E|E|E].
  - replace (X - Y) with 0 in * by lia. rewrite Hshape.
    split; [discriminate|]. intros _ _. right. reflexivity.
  - destruct (X - Y) as [|p|p] eqn:ED; try lia.
    split; [|discriminate]. intros _.
    destruct Hshape as [-> | [-> | [-> | (m & e & ->)]]]; reflexivity.
  - destruct (X - Y) as [|p|p] eqn:ED; try lia.
    split; [discriminate|]. intros _ Hnum.
    destruct Hshape as [H | [-> | [-> | (m & e & ->)]]].
    + rewrite H in Hnum. discriminate.
    + right. reflexivity.
    + left. reflexivity.
    + left. reflexivity.
Qed.

End Binary64Facts.



Lemma binary_round_aux_not_below_zero (mx ex : Z) (lx : location) :
  SFltb (binary_round_aux prec emax false mx ex lx) (S754_zero false) = false.
Proof.
  unfold binary_round_aux.
  destruct (shr_fexp prec emax mx ex lx) as [mrs' e'].
  destruct (shr_fexp prec emax _ e' loc_Exact) as [mrs'' e''].
  destruct (shr_m mrs''); try reflexivity.
  destruct (Z.leb e'' (Z.sub emax prec)); reflexivity.
Qed.

(** A sum of two doubles that are not below zero is not below zero,
    rounded, overflowed or NaN as it may be. *)
Lemma add_not_below_zero (x a : PrimFloat.float) :
  (x <? 0)%float = false -> (a <? 0)%float = false -> (x + a <? 0)%float = false.
Proof.
  rewrite !FloatAxioms.ltb_spec, add_spec.
  change (Prim2SF 0%float) with (S754_zero false).
  destruct (Prim2SF x) as [[|]|[|]| |[|] mx ex];
    destruct (Prim2SF a) as [[|]|[|]| |[|] ma ea];
    try reflexivity; try discriminate.
  intros _ _. unfold SF64add, SFadd. cbn [cond_Zopp].
  generalize (fst (shl_align mx ex (Z.min ex ea))) as p.
  generalize (fst (shl_align ma ea (Z.min ex ea))) as q.
  intros q p. change (Z.pos p + Z.pos q)%Z with (Z.pos (p + q)).
  unfold binary_normalize, binary_round.
  destruct (shl_align (p + q) _ _) as [mz ez].
  apply binary_round_aux_not_below_zero.
Qed.

(** The value of deficit against Python's [max]: they are equal as
    numbers whenever the difference is a number. *)
Lemma deficit_is_max (S L : PrimFloat.float) :
  (S - L =? S - L)%float = true ->
  ((if L <? S then S - L else 0) =? py_max (S - L) 0)%float = true.
Proof.
  intros Hnum.
  destruct (Binary64Facts.SFsub_against_zero (Prim2SF S) (Prim2SF L)
              (Prim2SF_valid S) (Prim2SF_valid L)) as [Hgt Hle].
  rewrite <- !FloatAxioms.ltb_spec, <- sub_spec in Hgt.
  rewrite <- !FloatAxioms.ltb_spec, <- sub_spec in Hle.
  change (S754_zero false) with (Prim2SF 0%float) in Hgt, Hle.
  rewrite <- FloatAxioms.ltb_spec in Hgt. rewrite <- FloatAxioms.ltb_spec, <- !FloatAxioms.eqb_spec in Hle.
  unfold py_max.
  destruct (L <? S)%float eqn:E.
  - rewrite (Hgt eq_refl). exact Hnum.
  - destruct (Hle eq_refl Hnum) as [H | H].
    + rewrite H. reflexivity.
    + destruct (S - L <? 0)%float; [reflexivity | exact H].
Qed.

(** A difference of doubles is not below zero when the first is the
    greater. *)
Lemma sub_not_below_zero (S L : PrimFloat.float) :
  (L <? S)%float = true -> (S - L <? 0)%float = false.
Proof.
  intros Hlt.
  destruct (Binary64Facts.SFsub_against_zero (Prim2SF S) (Prim2SF L)
              (Prim2SF_valid S) (Prim2SF_valid L)) as [Hgt _].
  rewrite FloatAxioms.ltb_spec, sub_spec. apply Hgt. rewrite <- FloatAxioms.ltb_spec. exact Hlt.
Qed.


Lemma record_all64_spec (amounts : list PrimFloat.float) :
  Forall (fun a => (a <? 0)%float = false) amounts ->
  forall b : Binary64.Budget.t,
    record_all64 amounts b
    = (Ok tt,
       {| Binary64.Budget._amount := Binary64.Budget._amount b;
          Binary64.Budget._spent :=
            fold_left PrimFloat.add amounts (Binary64.Budget._spent b) |}).
Proof.
  induction 1 as [|a amounts Ha _ IH]; intros b.
  - destruct b; reflexivity.
  - cbn [record_all64 fold_left]. unfold bind.
    unfold Binary64.Budget.add_expense. rewrite Ha.
    unfold modify. rewrite IH. reflexivity.
Qed.




Lemma attempt_all64_spec (amounts : list PrimFloat.float) :
  forall b : Binary64.Budget.t,
    attempt_all64 amounts b
    = {| Binary64.Budget._amount := Binary64.Budget._amount b;
         Binary64.Budget._spent :=
           fold_left PrimFloat.add (accepted64 amounts)
                     (Binary64.Budget._spent b) |}.
Proof.
  induction amounts as [|a amounts IH]; intros b.
  - destruct b; reflexivity.
  - unfold attempt_all64, accepted64. cbn [fold_left List.filter].
    fold (attempt_all64 amounts (snd (Binary64.Budget.add_expense a b))).
    fold (accepted64 amounts). rewrite IH.
    unfold Binary64.Budget.add_expense.
    destruct (a <? 0)%float; reflexivity.
Qed.

Lemma accepted64_not_below_zero (amounts : list PrimFloat.float) :
  Forall (fun a => (a <? 0)%float = false) (accepted64 amounts).
Proof.
  unfold accepted64. apply List.Forall_forall. intros a Ha.
  apply filter_In in Ha. destruct Ha as [_ Ha].
  apply negb_true_iff in Ha. exact Ha.
Qed.

Lemma fold_add_not_below_zero (amounts : list PrimFloat.float) :
  Forall (fun a => (a <? 0)%float = false) amounts ->
  forall x : PrimFloat.float,
    (x <? 0)%float = false ->
    (fold_left PrimFloat.add amounts x <? 0)%float = false.
Proof.
  induction 1 as [|a amounts Ha _ IH]; intros x Hx; [exact Hx|].
  cbn [fold_left]. apply IH. apply add_not_below_zero; assumption.
Qed.

(** X1: a budget built with limit [L] keeps that limit for ever.  Through
    any sequence of expenses, rejected ones included, a rejected expense
    leaves no trace: the spent total is the running sum of the accepted
    amounts alone, the budget is the one that recording only those would
    give, and the spent total is never below zero, whether the additions
    round, overflow or meet a NaN. *)
Theorem X1_budget_invariant
    (L : PrimFloat.float) (b0 : Binary64.Budget.t)
    (amounts : list PrimFloat.float) :
  Binary64.Budget.__init__ L = Ok b0 ->
  Binary64.Budget._amount (attempt_all64 amounts b0) = L /\
  (L <? 0)%float = false /\
  Binary64.Budget._spent (attempt_all64 amounts b0)
  = running_sum (accepted64 amounts) /\
  (Binary64.Budget._spent (attempt_all64 amounts b0) <? 0)%float = false /\
  record_all64 (accepted64 amounts) b0 = (Ok tt, attempt_all64 amounts b0).
Proof.
  intros Hinit. unfold Binary64.Budget.__init__ in Hinit.
  destruct (L <? 0)%float eqn:HL; [discriminate|].
  injection Hinit as <-.
  rewrite attempt_all64_spec. cbn [Binary64.Budget._amount Binary64.Budget._spent].
  split; [reflexivity|]. split; [reflexivity|]. split; [reflexivity|].
  split.
  - apply fold_add_not_below_zero; [apply accepted64_not_below_zero | reflexivity].
  - apply (record_all64_spec _ (accepted64_not_below_zero amounts)).
Qed.

Lemma X1_budget_invariant_witness :
  Binary64.Budget._spent
    (attempt_all64 [30; -5; 40]%float (Binary64.Budget.mk 100 0))
  = 70%float.
Proof.
  destruct (X1_budget_invariant 100%float (Binary64.Budget.mk 100 0)
              [30; -5; 40]%float eq_refl)
    as (_ & _ & Hspent & _).
  rewrite Hspent. reflexivity.
Defined.

(** ** Sessions, amount by amount *)








(** ** Budget over binary64: the deficit *)

(** X2: in every budget state the deficit is never below zero, rounded as
    the subtraction may be: it is the spent total minus the limit when the
    budget is exceeded and zero otherwise, and it equals [max] of that
    difference and 0 whenever the difference is a number and not NaN. *)
Theorem X2_deficit_is_never_negative (b : Binary64.Budget.t) :
  exists (exceeded : bool) (deficit : PrimFloat.float),
    Binary64.Budget.is_exceeded b = (Ok exceeded, b) /\
    Binary64.Budget.deficit b = (Ok deficit, b) /\
    exceeded = (Binary64.Budget._amount b <? Binary64.Budget._spent b)%float /\
    deficit = (if exceeded
               then (Binary64.Budget._spent b - Binary64.Budget._amount b)%float
               else 0%float) /\
    (deficit <? 0)%float = false /\
    ((Binary64.Budget._spent b - Binary64.Budget._amount b
      =? Binary64.Budget._spent b - Binary64.Budget._amount b)%float = true ->
     (deficit
      =? py_max (Binary64.Budget._spent b - Binary64.Budget._amount b) 0)%float
     = true).
Proof.
  destruct b as [lim sp]. cbn [Binary64.Budget._amount Binary64.Budget._spent].
  exists (lim <? sp)%float, (if (lim <? sp)%float then (sp - lim)%float else 0%float).
  split; [reflexivity|].
  split.
  { unfold Binary64.Budget.deficit, Binary64.Budget.is_exceeded, bind, get, ret.
    simpl. destruct (lim <? sp)%float; reflexivity. }
  split; [reflexivity|]. split; [reflexivity|].
  split; [|apply deficit_is_max].
  destruct (lim <? sp)%float eqn:E; [apply sub_not_below_zero; exact E | reflexivity].
Qed.

Lemma X2_deficit_is_never_negative_witness :
  exists deficit : PrimFloat.float,
    Binary64.Budget.deficit (Binary64.Budget.mk 100 120)
    = (Ok deficit, Binary64.Budget.mk 100 120) /\
    (deficit =? py_max (120 - 100) 0)%float = true.
Proof.
  destruct (X2_deficit_is_never_negative (Binary64.Budget.mk 100 120))
    as (exceeded & deficit & _ & Hdeficit & _ & _ & _ & Hmax).
  exists deficit. split; [exact Hdeficit|].
  apply Hmax. reflexivity.
Defined.
